(** * python-dependency-checker: the parsers, runners and exit policy of main.py

    A shallow embedding of [src/main.py].  Python text is a list of Unicode
    code points, the values read by [json.loads] are a small tree type, and
    the effects of the script (console output, sub-process invocations,
    appends to the summary file, [sys.exit] and uncaught exceptions) are
    recorded by a writer-with-exit monad. *)

From Stdlib Require Import List ZArith NArith Bool Lia String Ascii.
From Stdlib Require Import Permutation Sorted.
From Stdlib Require Floats.SpecFloat.
Import ListNotations.

Set Implicit Arguments.
Set Warnings "-register-all".

(** ** Python text *)

Module Text.

Local Open Scope N_scope.

(** A [str] is a sequence of code points. *)
Definition char := N.
Definition str := list char.

(** A literal written in ASCII. *)
Definition py (s : string) : str := map N_of_ascii (list_ascii_of_string s).

Definition LF : char := 10.

Fixpoint eqb (a b : str) : bool :=
  match a, b with
  | [], [] => true
  | x :: a', y :: b' => N.eqb x y && eqb a' b'
  | _, _ => false
  end.

Definition mem (c : char) (s : str) : bool := existsb (N.eqb c) s.

Definition between (lo hi c : char) : bool := N.leb lo c && N.leb c hi.

(** [str.isspace] on one code point: CPython's [_PyUnicode_IsWhitespace]. *)
Definition is_space (c : char) : bool :=
  between 9 13 c || between 28 32 c || N.eqb c 133 || N.eqb c 160
   || N.eqb c 5760 || between 8192 8202 c || N.eqb c 8232 || N.eqb c 8233
   || N.eqb c 8239 || N.eqb c 8287 || N.eqb c 12288.

(** The boundaries of [str.splitlines]: LF, VT, FF, CR, FS, GS, RS, NEL, LS, PS. *)
Definition is_linebreak (c : char) : bool :=
  between 10 13 c || between 28 30 c || N.eqb c 133
  || N.eqb c 8232 || N.eqb c 8233.

Fixpoint dropwhile (p : char -> bool) (s : str) : str :=
  match s with
  | [] => []
  | c :: s' => if p c then dropwhile p s' else s
  end.

Definition lstrip_by (p : char -> bool) (s : str) : str := dropwhile p s.
Definition rstrip_by (p : char -> bool) (s : str) : str := rev (dropwhile p (rev s)).
Definition strip_by (p : char -> bool) (s : str) : str := rstrip_by p (lstrip_by p s).

(** [s.strip()] *)
Definition strip (s : str) : str := strip_by is_space s.

(** [s.strip(chars)] *)
Definition strip_chars (chars : str) (s : str) : str :=
  strip_by (fun c => mem c chars) s.

(** [s.splitlines()]: [cur] is the line being read, last character first. *)
Fixpoint splitlines_from (cur : str) (s : str) : list str :=
  match s with
  | [] => match cur with [] => [] | _ => [rev cur] end
  | c :: rest =>
      if N.eqb c 13 then
        match rest with
        | d :: rest' =>
            if N.eqb d 10 then rev cur :: splitlines_from [] rest'
            else rev cur :: splitlines_from [] rest
        | [] => rev cur :: splitlines_from [] rest
        end
      else if is_linebreak c then rev cur :: splitlines_from [] rest
      else splitlines_from (c :: cur) rest
  end.

Definition splitlines (s : str) : list str := splitlines_from [] s.

(** [s.split()]: the maximal runs of characters that are not whitespace. *)
Fixpoint split_from (cur : str) (s : str) : list str :=
  match s with
  | [] => match cur with [] => [] | _ => [rev cur] end
  | c :: rest =>
      if is_space c then
        match cur with
        | [] => split_from [] rest
        | _ => rev cur :: split_from [] rest
        end
      else split_from (c :: cur) rest
  end.

Definition split (s : str) : list str := split_from [] s.

Fixpoint startswith (s prefix : str) : bool :=
  match prefix, s with
  | [], _ => true
  | p :: prefix', c :: s' => N.eqb p c && startswith s' prefix'
  | _ :: _, [] => false
  end.

(** [s.startswith((p1, p2, ...))] *)
Definition startswith_any (s : str) (prefixes : list str) : bool :=
  existsb (startswith s) prefixes.

Definition is_ascii (c : char) : bool := N.ltb c 128.

Definition ascii_lower (c : char) : char :=
  if between 65 90 c then c + 32 else c.

(** [sep.join(parts)] *)
Fixpoint join (sep : str) (parts : list str) : str :=
  match parts with
  | [] => []
  | [p] => p
  | p :: rest => p ++ sep ++ join sep rest
  end.

(** The order of [str] comparison: lexicographic on code points. *)
Fixpoint leb (a b : str) : bool :=
  match a, b with
  | [], _ => true
  | _ :: _, [] => false
  | x :: a', y :: b' => N.ltb x y || (N.eqb x y && leb a' b')
  end.

Fixpoint insert_sorted (x : str) (l : list str) : list str :=
  match l with
  | [] => [x]
  | y :: l' => if leb x y then x :: l else y :: insert_sorted x l'
  end.

(** [sorted(l)] on a list of [str] *)
Definition sorted (l : list str) : list str := fold_right insert_sorted [] l.

Definition eq_dec : forall a b : str, {a = b} + {a <> b} := list_eq_dec N.eq_dec.

(** [sorted(set(l))]: the distinct elements, in increasing order. *)
Definition sorted_set (l : list str) : list str := sorted (nodup eq_dec l).

Section Unicode.

(** The case and digit tables of the Unicode database are not part of the
    program: they are parameters, consulted outside ASCII only. *)
Variable unicode_lower : str -> str.
Variable unicode_isdigit : char -> bool.

(** [s.lower()]: CPython lowers an all-ASCII string byte by byte and goes to
    the Unicode tables otherwise. *)
Definition lower (s : str) : str :=
  if forallb is_ascii s then map ascii_lower s else unicode_lower s.

(** [c.isdigit()] for a one-character string *)
Definition isdigit (c : char) : bool :=
  if is_ascii c then between 48 57 c else unicode_isdigit c.

End Unicode.

End Text.

Abbreviation str := Text.str.
Abbreviation char := Text.char.
Abbreviation py := Text.py.

(** ** Values read by [json.loads] *)

(** A number is an [int] or a [float]; an object keeps its members in the
    order of the document, each key once. *)
Inductive json : Type :=
| JNull
| JBool (b : bool)
| JInt (z : Z)
| JFloat (f : SpecFloat.spec_float)
| JStr (s : str)
| JArr (items : list json)
| JObj (members : list (str * json)).

Definition is_empty {A} (l : list A) : bool :=
  match l with [] => true | _ => false end.

(** [bool(v)] *)
Definition truthy (v : json) : bool :=
  match v with
  | JNull => false
  | JBool b => b
  | JInt z => negb (Z.eqb z 0)
  | JFloat f => match f with SpecFloat.S754_zero _ => false | _ => true end
  | JStr s => negb (is_empty s)
  | JArr items => negb (is_empty items)
  | JObj members => negb (is_empty members)
  end.

(** [a or b] *)
Definition py_or (a b : json) : json := if truthy a then a else b.

Fixpoint lookup (members : list (str * json)) (key : str) : option json :=
  match members with
  | [] => None
  | (k, v) :: rest => if Text.eqb k key then Some v else lookup rest key
  end.

(** [d.get(key)] on a dict: [None] when the key is absent. *)
Definition dict_get (members : list (str * json)) (key : str) : json :=
  match lookup members key with Some v => v | None => JNull end.

(** ** Console markup *)

(** [console.print] reads square-bracket tags in every text it is given:
    rich's [markup.render].  Only what decides whether it raises is kept. *)
Module Markup.

Local Open Scope N_scope.

(** The character class that opens a tag: a lower-case letter, [#], [/] or
    [@]. *)
Definition tag_first (c : char) : bool :=
  Text.between 97 122 c || N.eqb c 35 || N.eqb c 47 || N.eqb c 64.

(** The rest of a tag, up to the first closing bracket; an opening bracket
    before it means that there is no tag here. *)
Fixpoint tag_rest (s : str) : option str :=
  match s with
  | [] => None
  | c :: s' =>
      if N.eqb c 93 then Some []
      else if N.eqb c 91 then None
      else match tag_rest s' with
           | Some body => Some (c :: body)
           | None => None
           end
  end.

(** The tag that starts after an opening bracket, from the text behind the
    bracket. *)
Definition tag_at (s : str) : option str :=
  match s with
  | c :: s' =>
      if tag_first c then
        match tag_rest s' with
        | Some body => Some (c :: body)
        | None => None
        end
      else None
  | [] => None
  end.

(** The matches of [RE_TAGS] that are tags, from left to right: [skip]
    characters belong to the match before, and [escapes] backslashes stand
    right before the next character.  An odd number of them escapes the tag. *)
Fixpoint tags_from (skip escapes : nat) (s : str) : list str :=
  match s with
  | [] => []
  | c :: s' =>
      match skip with
      | S n => tags_from n 0 s'
      | O =>
          if N.eqb c 92 then tags_from 0 (S escapes) s'
          else if N.eqb c 91 then
            match tag_at s' with
            | Some tag =>
                if Nat.even escapes then tag :: tags_from (S (List.length tag)) 0 s'
                else tags_from (S (List.length tag)) 0 s'
            | None => tags_from 0 0 s'
            end
          else tags_from 0 0 s'
      end
  end.

Definition tags (markup : str) : list str := tags_from 0 0 markup.

(** [Tag]: a name and what follows the first [=], when there is one. *)
Definition Tag : Type := (str * option str)%type.

(** [tag_text.partition("=")] *)
Fixpoint partition (s : str) : Tag :=
  match s with
  | [] => ([], None)
  | c :: s' =>
      if N.eqb c 61 then ([], Some s')
      else let (name, parameters) := partition s' in (c :: name, parameters)
  end.

(** [pop_style]: the open tag nearest to the top with this name leaves the
    stack.  The top of the stack is the head of the list. *)
Fixpoint pop_style (style_name : str) (stack : list Tag) : option (Tag * list Tag) :=
  match stack with
  | [] => None
  | tag :: below =>
      if Text.eqb (fst tag) style_name then Some (tag, below)
      else match pop_style style_name below with
           | Some (found, below') => Some (found, tag :: below')
           | None => None
           end
  end.

(** [style_stack.pop()] *)
Definition pop (stack : list Tag) : option (Tag * list Tag) :=
  match stack with
  | [] => None
  | tag :: below => Some (tag, below)
  end.

Section Styles.

(** [Style.normalize], and whether the parameters of a handler tag such as
    [@click=...] fail to parse as a Python literal: the style grammar and
    [ast.literal_eval] are not part of the program. *)
Variable style_normalize : str -> str.
Variable handler_error : str -> bool.

(** The check made when a tag is closed: only a handler tag with parameters
    is parsed further. *)
Definition close_error (open_tag : Tag) : bool :=
  match snd open_tag with
  | Some (c :: parameters) =>
      if Text.startswith (fst open_tag) (Text.py "@")
      then handler_error (c :: parameters)
      else false
  | _ => false
  end.

(** The loop of [render] over the tags: [true] when it raises [MarkupError]. *)
Fixpoint render_error (stack : list Tag) (ts : list str) : bool :=
  match ts with
  | [] => false
  | t :: ts' =>
      let (name, parameters) := partition t in
      match name with
      | 47 :: closed =>
          let style_name := Text.strip closed in
          match (if is_empty style_name then pop stack
                 else pop_style (style_normalize style_name) stack) with
          | None => true
          | Some (open_tag, stack') =>
              if close_error open_tag then true else render_error stack' ts'
          end
      | _ => render_error ((style_normalize name, parameters) :: stack) ts'
      end
  end.

(** Whether [markup.render] raises on this text. *)
Definition raises (markup : str) : bool := render_error [] (tags markup).

End Styles.

(** A lone surrogate has no UTF-8 encoding. *)
Definition is_surrogate (c : char) : bool := Text.between 55296 57343 c.
Definition has_surrogate (s : str) : bool := existsb is_surrogate s.

End Markup.

(** ** Effects *)

Inductive exn :=
| AttributeError | TypeError | IndexError
| MarkupError | UnicodeEncodeError.

(** How a call ends: it returns, it calls [sys.exit], or it raises. *)
Inductive outcome (A : Type) : Type :=
| Done (a : A)
| Exited (code : Z)
| Raised (e : exn).
Arguments Done {A} a.
Arguments Exited {A} code.
Arguments Raised {A} e.

(** A resolved, absolute [pathlib.Path]: its components below the root. *)
Record Path := { parts : list str }.

(** [str(path)] *)
Definition path_str (p : Path) : str :=
  py "/" ++ Text.join (py "/") (parts p).

(** [path / name] *)
Definition path_join (p : Path) (name : str) : Path :=
  {| parts := parts p ++ [name] |}.

(** What [console.print] is given. *)
Inductive renderable :=
| Markup (text : str)
| PanelFit (body title border_style : str)
| TableOf (title : str) (rows : list (str * str * str)).

(** The texts of a renderable that are read as markup: a panel's body and
    title, a table's title and the two cells of each row (the third component
    of a row is its style). *)
Definition texts (r : renderable) : list str :=
  match r with
  | Markup text => [text]
  | PanelFit body title _ => [body; title]
  | TableOf title rows =>
      title :: flat_map (fun row => [fst (fst row); snd (fst row)]) rows
  end.

Inductive event :=
| Printed (r : renderable)
| Ran (command : list str) (cwd : Path)
| Appended (file : str) (text : str).

(** A computation: the events it caused, in order, and how it ended. *)
Definition M (A : Type) : Type := (list event * outcome A)%type.

Definition ret {A} (a : A) : M A := ([], Done a).

Definition bind {A B} (m : M A) (k : A -> M B) : M B :=
  match m with
  | (t, Done a) => let (t', r) := k a in (t ++ t', r)
  | (t, Exited c) => (t, Exited c)
  | (t, Raised e) => (t, Raised e)
  end.

Definition lift {A} (o : outcome A) : M A := ([], o).
Definition emit (e : event) : M unit := ([e], Done tt).
Definition sys_exit {A} (code : Z) : M A := ([], Exited code).
Definition raise {A} (e : exn) : M A := ([], Raised e).

Declare Scope py_scope.
Delimit Scope py_scope with M.
Notation "x <- m ;; k" := (bind m (fun x => k))
  (at level 61, m at next level, right associativity) : py_scope.
Notation "m ;; k" := (bind m (fun _ => k))
  (at level 61, right associativity) : py_scope.
Open Scope py_scope.

(** [for x in xs: acc = step(acc, x)], stopping at the first exit or raise. *)
Fixpoint for_each {A S} (step : S -> A -> outcome S) (acc : S) (xs : list A)
  : outcome S :=
  match xs with
  | [] => Done acc
  | x :: rest =>
      match step acc x with
      | Done acc' => for_each step acc' rest
      | Exited c => Exited c
      | Raised e => Raised e
      end
  end.

(** The status a [main] that ended in [o] leaves with: the argument of
    [sys.exit], 1 after an uncaught exception, 0 otherwise. *)
Definition exit_status {A} (o : outcome A) : Z :=
  match o with
  | Done _ => 0
  | Exited code => code
  | Raised _ => 1
  end.

(** ** The program *)

Definition EMOJI_start : str := [129517%N].
Definition EMOJI_scan : str := [128269%N].
Definition EMOJI_ok : str := [9989%N].
Definition EMOJI_missing : str := [10060%N].
Definition EMOJI_unused : str := [129718%N].
Definition EMOJI_failure : str := [128680%N].
Definition EMOJI_info : str := [8505%N; 65039%N].

(** [subprocess.CompletedProcess] *)
Record CompletedProcess := {
  returncode : Z;
  stdout : str;
  stderr : str
}.

(** [code not in (0, 1)] *)
Definition not_in_0_1 (code : Z) : bool := negb (Z.eqb code 0 || Z.eqb code 1).

(** [a or b] on exit codes *)
Definition or_code (a b : Z) : Z := if Z.eqb a 0 then b else a.

Section Program.

(** *** What the program is run against *)

(** The Unicode tables behind [str.lower] and [str.isdigit]. *)
Variable unicode_lower : str -> str.
Variable unicode_isdigit : char -> bool.

(** [json.loads]: the value read, or the message of the [JSONDecodeError] for
    a text that is not JSON. *)
Variable json_loads : str -> str + json.

(** The text between the braces of [str(d)] for a dict [d]. *)
Variable dict_items_repr : list (str * json) -> str.

(** [os.getenv] *)
Variable getenv : str -> option str.

(** [Path(raw).expanduser().resolve()], [Path.exists] and [Path.is_dir] *)
Variable resolve : str -> Path.
Variable path_exists : Path -> bool.
Variable path_is_dir : Path -> bool.

(** [subprocess.run(command, cwd=..., capture_output=True, text=True)] for a
    command that can be spawned. *)
Variable subprocess_run : list str -> Path -> CompletedProcess.

(** What rich takes from outside the markup rules: [Style.normalize] and the
    parsing of handler parameters. *)
Variable style_normalize : str -> str.
Variable handler_error : str -> bool.

(** Standard output is UTF-8.  Whether it refuses what it is given is asked
    only when a lone surrogate is among the text: its error handler decides. *)
Variable stdout_rejects : renderable -> bool.

Let lower := Text.lower unicode_lower.
Let isdigit := Text.isdigit unicode_isdigit.

(** Whether rich's markup parser raises on a text. *)
Definition markup_error (text : str) : bool :=
  Markup.raises style_normalize handler_error text.

(** The exception [console.print] raises on a renderable, if any: a
    [MarkupError] while it is rendered, a [UnicodeEncodeError] when the
    rendered text is written. *)
Definition console_error (r : renderable) : option exn :=
  if existsb markup_error (texts r) then Some MarkupError
  else if existsb Markup.has_surrogate (texts r) && stdout_rejects r
       then Some UnicodeEncodeError
       else None.

(** [console.print]: nothing is written by a call that raises. *)
Definition console_print (r : renderable) : M unit :=
  match console_error r with
  | Some e => raise e
  | None => emit (Printed r)
  end.

(** [os.getenv(name, default)] *)
Definition getenv_default (name default : str) : str :=
  match getenv name with Some v => v | None => default end.

(** [a or b] where [a] is what [os.getenv] returned *)
Definition or_env (a : option str) (b : str) : str :=
  match a with
  | Some (c :: v) => c :: v
  | _ => b
  end.

(** [str(d)] for a dict *)
Definition str_of_dict (members : list (str * json)) : str :=
  py "{" ++ dict_items_repr members ++ py "}".

(** [resolve_project_path] *)
Definition resolve_project_path (raw_path : str) : M Path :=
  let path := resolve raw_path in
  if negb (path_exists path) then
    console_print (Markup (EMOJI_failure ++ py " [bold red]Path '" ++ path_str path
                           ++ py "' does not exist.[/bold red]")) ;;
    sys_exit 2
  else if negb (path_is_dir path) then
    console_print (Markup (EMOJI_failure ++ py " [bold red]Path '" ++ path_str path
                           ++ py "' is not a directory.[/bold red]")) ;;
    sys_exit 2
  else ret path.

(** [run_command] *)
Definition run_command (command : list str) (cwd : Path) : M CompletedProcess :=
  emit (Ran command cwd) ;;
  ret (subprocess_run command cwd).

(** [item.get("module") or item.get("name") or str(item)]: only a dict has
    [get]. *)
Definition entry_name (item : json) : outcome json :=
  match item with
  | JObj members =>
      Done (py_or (dict_get members (py "module"))
             (py_or (dict_get members (py "name"))
                (JStr (str_of_dict members))))
  | _ => Raised AttributeError
  end.

(** [data.get(key, [])] *)
Definition get_or_empty (data : json) (key : str) : outcome json :=
  match data with
  | JObj members =>
      Done (match lookup members key with Some v => v | None => JArr [] end)
  | _ => Raised AttributeError
  end.

(** What [for item in v] runs over. *)
Definition iterate (v : json) : outcome (list json) :=
  match v with
  | JArr items => Done items
  | JStr s => Done (map (fun c => JStr [c]) s)
  | JObj members => Done (map (fun kv => JStr (fst kv)) members)
  | _ => Raised TypeError
  end.

(** The loop of a comprehension over [entry_name]: the names so far, then
    those of [items], up to the first entry that raises. *)
Definition collect_names (acc : list json) (items : list json) : outcome (list json) :=
  for_each (fun acc item =>
              match entry_name item with
              | Done n => Done (acc ++ [n])
              | Exited c => Exited c
              | Raised e => Raised e
              end) acc items.

(** [[entry_name(item) for item in data.get(key, [])]] *)
Definition names_of (data : json) (key : str) : outcome (list json) :=
  match get_or_empty data key with
  | Done v =>
      match iterate v with
      | Done items => collect_names [] items
      | Exited c => Exited c
      | Raised e => Raised e
      end
  | Exited c => Exited c
  | Raised e => Raised e
  end.

(** The two comprehensions of [parse_deptry_report], on the loaded value. *)
Definition deptry_findings (data : json) : M (list json * list json) :=
  missing <- lift (names_of data (py "missing")) ;;
  unused <- lift (names_of data (py "unused")) ;;
  ret (missing, unused).

(** [parse_deptry_report] *)
Definition parse_deptry_report (stdout : str) : M (list json * list json) :=
  if is_empty (Text.strip stdout) then ret ([], [])
  else
    match json_loads stdout with
    | inl exc =>
        console_print
          (Markup (EMOJI_failure
                   ++ py " [bold red]Unable to parse deptry output as JSON:[/bold red] "
                   ++ exc)) ;;
        console_print (Markup stdout) ;;
        sys_exit 2
    | inr data => deptry_findings data
    end.

Definition header_prefixes : list str :=
  [py "examining "; py "missing requirements"; py "unused requirements";
   py "extra requirements"].
Definition noise_prefixes : list str :=
  [py "configuration"; py "results"; py "to fix"; py "hint:"; py "warning"].
Definition marker_prefixes : list str := [py "#"; py "="; py "---"].
Definition bullet_prefixes : list str := [py "- "; py "* "].
Definition allowed_chars : str :=
  py "abcdefghijklmnopqrstuvwxyzABCDEFGHIJKLMNOPQRSTUVWXYZ0123456789-_.".

(** One turn of the loop of [parse_pip_check_output]: [modules] after [line]. *)
Definition scan_line (modules : list str) (line : str) : outcome (list str) :=
  let clean := Text.strip line in
  match clean with
  | [] => Done modules
  | first :: _ =>
      let lowered := lower clean in
      if Text.startswith_any lowered header_prefixes then Done modules
      else if Text.startswith_any lowered noise_prefixes then Done modules
      else if Text.startswith_any clean marker_prefixes then Done modules
      else if isdigit first && Text.mem 58%N clean then Done modules
      else
        let clean :=
          if Text.startswith_any clean bullet_prefixes then skipn 2 clean
          else clean in
        match Text.split clean with
        | [] => Raised IndexError
        | token :: _ =>
            let candidate := Text.strip_chars (py ",") token in
            if is_empty candidate then Done modules
            else if forallb (fun c => Text.mem c allowed_chars) candidate
            then Done (modules ++ [candidate])
            else Done modules
        end
  end.

(** [parse_pip_check_output] *)
Definition parse_pip_check_output (stdout : str) : outcome (list str) :=
  match for_each scan_line [] (Text.splitlines stdout) with
  | Done modules => Done (Text.sorted_set modules)
  | Exited c => Exited c
  | Raised e => Raised e
  end.

(** [run_deptry] *)
Definition run_deptry (path : Path) : M (list json * list json) :=
  console_print
    (Markup (EMOJI_scan ++ py " [bold cyan]Running deptry analysis...[/bold cyan]")) ;;
  result <- run_command [py "deptry"; path_str path; py "--json"] path ;;
  if not_in_0_1 (returncode result) then
    console_print
      (Markup (EMOJI_failure ++ py " [bold red]deptry failed to execute.[/bold red]")) ;;
    (if is_empty (stderr result) then ret tt
     else console_print (PanelFit (stderr result) (py "deptry stderr") (py "red"))) ;;
    sys_exit (or_code (returncode result) 2)
  else parse_deptry_report (stdout result).

Definition candidates (path : Path) : list Path :=
  [path_join path (py "requirements.txt");
   path_join path (py "requirements-dev.txt");
   path_join path (py "requirements.in")].

(** [select_requirements_file] *)
Definition select_requirements_file (path : Path) : option Path :=
  find path_exists (candidates path).

(** [for title, stderr in diagnostics.items(): console.print(Panel.fit(...))] *)
Fixpoint print_diagnostics (border_style : str) (diagnostics : list (str * str))
  : M unit :=
  match diagnostics with
  | [] => ret tt
  | (title, text) :: rest =>
      console_print (PanelFit text (title ++ py " stderr") border_style) ;;
      print_diagnostics border_style rest
  end.

(** [run_pip_check_reqs]; [diagnostics] is a dict with at most the two keys
    below, kept in the order they were set. *)
Definition run_pip_check_reqs (path : Path)
  : M (list str * list str * list (str * str)) :=
  console_print
    (Markup (EMOJI_scan
             ++ py " [bold cyan]Running pip-check-reqs analysis...[/bold cyan]")) ;;
  let requirements := select_requirements_file path in
  let command_suffix : list str :=
    match requirements with
    | Some r => [py "--requirements-file"; path_str r]
    | None => []
    end in
  let missing_cmd := [py "pip-missing-reqs"; path_str path] in
  let extra_cmd := [py "pip-extra-reqs"; path_str path] in
  let missing_cmd :=
    if is_empty command_suffix then missing_cmd else missing_cmd ++ command_suffix in
  let extra_cmd :=
    if is_empty command_suffix then extra_cmd else extra_cmd ++ command_suffix in
  missing_result <- run_command missing_cmd path ;;
  extra_result <- run_command extra_cmd path ;;
  let diagnostics : list (str * str) := [] in
  let diagnostics :=
    if is_empty (stderr missing_result) then diagnostics
    else diagnostics ++ [(py "pip-missing-reqs", stderr missing_result)] in
  let diagnostics :=
    if is_empty (stderr extra_result) then diagnostics
    else diagnostics ++ [(py "pip-extra-reqs", stderr extra_result)] in
  if not_in_0_1 (returncode missing_result) || not_in_0_1 (returncode extra_result)
  then
    console_print
      (Markup (EMOJI_failure
               ++ py " [bold red]pip-check-reqs commands exited with an unexpected status.[/bold red]")) ;;
    print_diagnostics (py "red") diagnostics ;;
    sys_exit (or_code (returncode missing_result)
                (or_code (returncode extra_result) 2))
  else
    (if is_empty (Text.strip (stdout missing_result)) then ret tt
     else console_print
            (PanelFit (Text.strip (stdout missing_result)) (py "pip-missing-reqs")
               (py "cyan"))) ;;
    (if is_empty (Text.strip (stdout extra_result)) then ret tt
     else console_print
            (PanelFit (Text.strip (stdout extra_result)) (py "pip-extra-reqs")
               (py "cyan"))) ;;
    missing <- lift (parse_pip_check_output (stdout missing_result)) ;;
    unused <- lift (parse_pip_check_output (stdout extra_result)) ;;
    ret (missing, unused, diagnostics).

(** The names of a finding list when every one is a [str]. *)
Fixpoint as_strs (names : list json) : option (list str) :=
  match names with
  | [] => Some []
  | JStr s :: rest =>
      match as_strs rest with Some l => Some (s :: l) | None => None end
  | _ :: _ => None
  end.

(** [", ".join(sorted(names))]: a name that is not a [str] is a [TypeError],
    from [sorted] or from [join]. *)
Definition joined_sorted (names : list json) : outcome str :=
  match as_strs names with
  | Some l => Done (Text.join (py ", ") (Text.sorted l))
  | None => Raised TypeError
  end.

(** The rows or bullet lines of a report: one for each list that is not
    empty, or the one saying that all is well. *)
Definition report_lines {R} (missing unused : list json)
    (missing_line unused_line : str -> R) (ok_line : R) : outcome (list R) :=
  match (if is_empty missing then Done []
         else match joined_sorted missing with
              | Done s => Done [missing_line s]
              | Exited c => Exited c
              | Raised e => Raised e
              end) with
  | Done rows_m =>
      match (if is_empty unused then Done []
             else match joined_sorted unused with
                  | Done s => Done [unused_line s]
                  | Exited c => Exited c
                  | Raised e => Raised e
                  end) with
      | Done rows_u =>
          Done (rows_m ++ rows_u
                ++ (if is_empty missing && is_empty unused then [ok_line] else []))
      | Exited c => Exited c
      | Raised e => Raised e
      end
  | Exited c => Exited c
  | Raised e => Raised e
  end.

(** [render_table] *)
Definition render_table (missing unused : list json) : M unit :=
  rows <- lift (report_lines missing unused
                  (fun s => (EMOJI_missing ++ py " Missing", s, py "bold red"))
                  (fun s => (EMOJI_unused ++ py " Unused", s, py "yellow"))
                  (EMOJI_ok ++ py " All good!", py "No issues detected.", py "green")) ;;
  console_print (TableOf (EMOJI_info ++ py " Dependency Report") rows).

(** [write_summary]; the summary file is taken to be writable, and is written
    in UTF-8: a lone surrogate in the text is a [UnicodeEncodeError]. *)
Definition write_summary (missing unused : list json) (mode : str) : M unit :=
  match getenv (py "GITHUB_STEP_SUMMARY") with
  | Some (c :: p) =>
      let summary_path := c :: p in
      bullets <- lift (report_lines missing unused
                         (fun s => py "- " ++ EMOJI_missing
                                   ++ py " **Missing dependencies**: " ++ s)
                         (fun s => py "- " ++ EMOJI_unused
                                   ++ py " **Unused dependencies**: " ++ s)
                         (py "- " ++ EMOJI_ok ++ py " All dependencies look good!")) ;;
      let lines :=
        [py "## " ++ EMOJI_info ++ py " Python Dependency Checker (" ++ mode ++ py ")";
         []] ++ bullets in
      let text := Text.join [Text.LF] lines ++ [Text.LF] in
      if Markup.has_surrogate text then raise UnicodeEncodeError
      else emit (Appended summary_path text)
  | _ => ret tt
  end.

(** The flag read from the environment, lines 234 to 239 of [main]. *)
Definition fail_on_warn_raw : str :=
  or_env (getenv (py "INPUT_FAIL_ON_WARN"))
    (or_env (getenv (py "INPUT_FAIL-ON-WARN")) (py "false")).

Definition fail_on_warn : bool :=
  Text.eqb (lower (Text.strip fail_on_warn_raw)) (py "true").

(** The end of [main], lines 271 to 287: what is said and how the run ends. *)
Definition exit_policy {A} (missing unused : list A) (fail_on_warn : bool) : M unit :=
  let has_missing := negb (is_empty missing) in
  let has_unused := negb (is_empty unused) in
  if has_missing || (has_unused && fail_on_warn) then
    console_print
      (Markup (EMOJI_failure ++ py " [bold red]Dependency issues detected.[/bold red]")) ;;
    sys_exit 1
  else
    (if has_unused && negb fail_on_warn then
       console_print
         (Markup (EMOJI_unused
                  ++ py " [yellow]Unused dependencies detected (warnings only).[/yellow]"))
     else ret tt) ;;
    console_print
      (Markup (EMOJI_ok ++ py " [bold green]All checks completed successfully.[/bold green]")).

(** [str(b)] for a [bool] *)
Definition str_of_bool (b : bool) : str := if b then py "True" else py "False".

(** The findings of the chosen mode, lines 254 to 262 of [main]. *)
Definition analyse (mode : str) (project_path : Path)
  : M (list json * list json * list (str * str)) :=
  if Text.eqb mode (py "deptry") then
    r <- run_deptry project_path ;;
    ret (fst r, snd r, [])
  else if Text.eqb mode (py "pip-check-reqs") then
    r <- run_pip_check_reqs project_path ;;
    let '(missing, unused, diagnostics) := r in
    ret (map JStr missing, map JStr unused, diagnostics)
  else
    console_print
      (Markup (EMOJI_failure ++ py " [bold red]Unsupported mode '" ++ mode
               ++ py "'. Use 'deptry' or 'pip-check-reqs'.[/bold red]")) ;;
    sys_exit 2.

(** [main] *)
Definition main : M unit :=
  let raw_path := getenv_default (py "INPUT_PATH") (py ".") in
  let mode := lower (Text.strip (getenv_default (py "INPUT_MODE") (py "deptry"))) in
  console_print
    (Markup (EMOJI_start ++ py " [bold blue]Python Dependency Checker[/bold blue] started.")) ;;
  console_print
    (Markup (EMOJI_info ++ py " Checking [bold]" ++ raw_path ++ py "[/bold] using [bold]"
             ++ mode ++ py "[/bold] (fail-on-warn=" ++ str_of_bool fail_on_warn
             ++ py ").")) ;;
  project_path <- resolve_project_path raw_path ;;
  found <- analyse mode project_path ;;
  let '(missing, unused, diagnostics) := found in
  render_table missing unused ;;
  write_summary missing unused mode ;;
  print_diagnostics (py "yellow") diagnostics ;;
  exit_policy missing unused fail_on_warn.

(** ** What the statements name *)

(** The lines the program prints, by the place that prints them. *)
Definition MSG_started : renderable :=
  Markup (EMOJI_start ++ py " [bold blue]Python Dependency Checker[/bold blue] started.").
Definition MSG_checking (raw_path mode : str) (flag : bool) : renderable :=
  Markup (EMOJI_info ++ py " Checking [bold]" ++ raw_path
          ++ py "[/bold] using [bold]" ++ mode
          ++ py "[/bold] (fail-on-warn=" ++ str_of_bool flag ++ py ").").

Definition MSG_deptry_banner : renderable :=
  Markup (EMOJI_scan ++ py " [bold cyan]Running deptry analysis...[/bold cyan]").

Definition MSG_unparsable (detail : str) : renderable :=
  Markup (EMOJI_failure
          ++ py " [bold red]Unable to parse deptry output as JSON:[/bold red] "
          ++ detail).

Definition MSG_pip_banner : renderable :=
  Markup (EMOJI_scan ++ py " [bold cyan]Running pip-check-reqs analysis...[/bold cyan]").
Definition MSG_unexpected_status : renderable :=
  Markup (EMOJI_failure
          ++ py " [bold red]pip-check-reqs commands exited with an unexpected status.[/bold red]").

Definition MSG_issues : renderable :=
  Markup (EMOJI_failure ++ py " [bold red]Dependency issues detected.[/bold red]").
Definition MSG_warnings_only : renderable :=
  Markup (EMOJI_unused
          ++ py " [yellow]Unused dependencies detected (warnings only).[/yellow]").
Definition MSG_success : renderable :=
  Markup (EMOJI_ok ++ py " [bold green]All checks completed successfully.[/bold green]").

(** The argument naming the manifest, when one was found. *)
Definition manifest_argument (manifest : option Path) : list str :=
  match manifest with
  | Some r => [py "--requirements-file"; path_str r]
  | None => []
  end.

(** The command line of one of the two requirements checkers. *)
Definition check_command (tool : str) (path : Path) (manifest : option Path)
  : list str :=
  [tool; path_str path] ++ manifest_argument manifest.

(** [diagnostics] after [diagnostics[title] = text] under [if text:] *)
Definition add_diagnostic (title text : str) (diagnostics : list (str * str))
  : list (str * str) :=
  if is_empty text then diagnostics else diagnostics ++ [(title, text)].

(** The two results the runner decides on. *)
Definition missing_result (path : Path) : CompletedProcess :=
  subprocess_run
    (check_command (py "pip-missing-reqs") path (select_requirements_file path)) path.
Definition extra_result (path : Path) : CompletedProcess :=
  subprocess_run
    (check_command (py "pip-extra-reqs") path (select_requirements_file path)) path.

(** The name of an entry in the words of the specification: its [module]
    field, then its [name] field, then its string form. *)
Definition spec_entry_name (members : list (str * json)) : json :=
  let string_form := JStr (str_of_dict members) in
  let by_name :=
    match lookup members (py "name") with
    | Some v => if truthy v then v else string_form
    | None => string_form
    end in
  match lookup members (py "module") with
  | Some v => if truthy v then v else by_name
  | None => by_name
  end.

(** The two lists written back as a document, name by name. *)
Definition reserialize_plain (missing unused : list json) : json :=
  JObj [(py "missing", JArr missing); (py "unused", JArr unused)].

(** [a <= b] on [str] *)
Definition in_order (a b : str) : Prop := Text.leb a b = true.

(** A name the line-oriented parser may return: not empty, and made of the
    allowed characters. *)
Definition valid_name (s : str) : bool :=
  negb (is_empty s) && forallb (fun c => Text.mem c allowed_chars) s.

(** What one line adds to the list, read off a turn of the loop that starts
    from the empty list. *)
Definition line_tokens (line : str) : list str :=
  match scan_line [] line with
  | Done tokens => tokens
  | _ => []
  end.

Definition MSG_deptry_failed : renderable :=
  Markup (EMOJI_failure ++ py " [bold red]deptry failed to execute.[/bold red]").

(** The command line of the structured analyzer and its result. *)
Definition deptry_command (path : Path) : list str :=
  [py "deptry"; path_str path; py "--json"].
Definition deptry_result (path : Path) : CompletedProcess :=
  subprocess_run (deptry_command path) path.

(** [if text: console.print(Panel.fit(text, title=..., border_style=...))] *)
Definition show_if_text (text title border_style : str) : M unit :=
  if is_empty text then ret tt
  else console_print (PanelFit text title border_style).

(** What the requirements-file runner does once it has the two results,
    lines 151 to 183. *)
Definition pip_check_reqs_verdict (m e : CompletedProcess)
  : M (list str * list str * list (str * str)) :=
  let diagnostics :=
    add_diagnostic (py "pip-extra-reqs") (stderr e)
      (add_diagnostic (py "pip-missing-reqs") (stderr m) []) in
  if not_in_0_1 (returncode m) || not_in_0_1 (returncode e) then
    console_print MSG_unexpected_status ;;
    print_diagnostics (py "red") diagnostics ;;
    sys_exit (or_code (returncode m) (or_code (returncode e) 2))
  else
    show_if_text (Text.strip (stdout m)) (py "pip-missing-reqs") (py "cyan") ;;
    show_if_text (Text.strip (stdout e)) (py "pip-extra-reqs") (py "cyan") ;;
    missing <- lift (parse_pip_check_output (stdout m)) ;;
    unused <- lift (parse_pip_check_output (stdout e)) ;;
    ret (missing, unused, diagnostics).

(** The panel showing what a tool wrote, when it wrote anything. *)
Definition panel_if_text (text title border_style : str) : list event :=
  if is_empty text then [] else [Printed (PanelFit text title border_style)].

(** The line printed for a path that cannot be used. *)
Definition MSG_bad_path (path : Path) : renderable :=
  Markup (EMOJI_failure ++ py " [bold red]Path '" ++ path_str path
          ++ (if path_exists path then py "' is not a directory.[/bold red]"
              else py "' does not exist.[/bold red]")).

Definition MSG_unsupported_mode (mode : str) : renderable :=
  Markup (EMOJI_failure ++ py " [bold red]Unsupported mode '" ++ mode
          ++ py "'. Use 'deptry' or 'pip-check-reqs'.[/bold red]").

(** How a run that gives up ends: it prints a last line after the events
    [before] and exits with status 2, or that line cannot be printed. *)
Definition gives_up (before : list event) (line : renderable) : M unit :=
  match console_error line with
  | Some e => (before, Raised e)
  | None => (before ++ [Printed line], Exited 2)
  end.

(** Every status the computation can exit with satisfies [P]. *)
Definition exits_within {A} (P : Z -> Prop) (m : M A) : Prop :=
  forall code, snd m = Exited code -> P code.

(** A value that has [get]: a dict. *)
Definition is_object (v : json) : bool :=
  match v with JObj _ => true | _ => false end.

(** A value that [for] cannot run over: [None], a [bool] or a number. *)
Definition not_iterable (v : json) : bool :=
  match v with
  | JNull | JBool _ | JInt _ | JFloat _ => true
  | _ => false
  end.

Definition TABLE_title : str := EMOJI_info ++ py " Dependency Report".

(** The rows of the table for two lists of names. *)
Definition table_rows (ms us : list str) : list (str * str * str) :=
  (if is_empty ms then []
   else [(EMOJI_missing ++ py " Missing", Text.join (py ", ") (Text.sorted ms),
          py "bold red")])
  ++ (if is_empty us then []
      else [(EMOJI_unused ++ py " Unused", Text.join (py ", ") (Text.sorted us),
             py "yellow")])
  ++ (if is_empty ms && is_empty us
      then [(EMOJI_ok ++ py " All good!", py "No issues detected.", py "green")]
      else []).

(** The text appended to the summary for two lists of names. *)
Definition summary_text (ms us : list str) (mode : str) : str :=
  Text.join [Text.LF]
    ([py "## " ++ EMOJI_info ++ py " Python Dependency Checker (" ++ mode ++ py ")";
      []]
     ++ (if is_empty ms then []
         else [py "- " ++ EMOJI_missing ++ py " **Missing dependencies**: "
               ++ Text.join (py ", ") (Text.sorted ms)])
     ++ (if is_empty us then []
         else [py "- " ++ EMOJI_unused ++ py " **Unused dependencies**: "
               ++ Text.join (py ", ") (Text.sorted us)])
     ++ (if is_empty ms && is_empty us
         then [py "- " ++ EMOJI_ok ++ py " All dependencies look good!"]
         else []))
  ++ [Text.LF].

(** A character that is neither an opening bracket nor a surrogate, and a
    text made of such characters: it holds no tag and can be encoded. *)
Definition plain_char (c : char) : bool :=
  negb (N.eqb c 91) && negb (Markup.is_surrogate c).
Definition plain_text (s : str) : bool := forallb plain_char s.

(** ** Facts about the text operations *)

Lemma text_eqb_eq (a b : str) : Text.eqb a b = true <-> a = b.
Proof.
  revert b; induction a as [|x a IH]; intros [|y b]; simpl; split;
    try congruence; try reflexivity.
  - intros H. apply andb_true_iff in H as [Hx Hab].
    apply N.eqb_eq in Hx. apply IH in Hab. congruence.
  - intros H. injection H as -> ->. rewrite N.eqb_refl. simpl. now apply IH.
Qed.

Lemma dropwhile_all (p : char -> bool) (s : str) :
  forallb p s = true -> Text.dropwhile p s = [].
Proof.
  induction s as [|c s IH]; simpl; [reflexivity|].
  intros H. apply andb_true_iff in H as [Hc Hs]. now rewrite Hc, IH.
Qed.

Lemma dropwhile_none (p : char -> bool) (s : str) :
  forallb (fun c => negb (p c)) s = true -> Text.dropwhile p s = s.
Proof.
  destruct s as [|c s]; simpl; [reflexivity|].
  intros H. apply andb_true_iff in H as [Hc _].
  apply negb_true_iff in Hc. now rewrite Hc.
Qed.

Lemma strip_by_all (p : char -> bool) (s : str) :
  forallb p s = true -> Text.strip_by p s = [].
Proof.
  intros H. unfold Text.strip_by, Text.rstrip_by, Text.lstrip_by.
  now rewrite (dropwhile_all p s H).
Qed.

Lemma strip_by_none (p : char -> bool) (s : str) :
  forallb (fun c => negb (p c)) s = true -> Text.strip_by p s = s.
Proof.
  intros H. unfold Text.strip_by, Text.rstrip_by, Text.lstrip_by.
  rewrite (dropwhile_none p s H), dropwhile_none.
  - apply rev_involutive.
  - apply forallb_forall. intros c Hc. apply in_rev in Hc.
    now apply (proj1 (forallb_forall _ _) H).
Qed.

Lemma not_linebreak_not_cr (c : char) :
  Text.is_linebreak c = false -> N.eqb c 13 = false.
Proof.
  intros H. destruct (N.eqb_spec c 13) as [->|]; [discriminate H | reflexivity].
Qed.

Lemma splitlines_from_one_line (s cur : str) :
  forallb (fun c => negb (Text.is_linebreak c)) s = true ->
  Text.splitlines_from cur s =
  match rev cur ++ s with [] => [] | line => [line] end.
Proof.
  revert cur; induction s as [|c s IH]; intros cur H; simpl.
  - rewrite app_nil_r. destruct cur as [|x cur]; [reflexivity|].
    simpl. destruct (rev cur ++ [x]) eqn:E; [|reflexivity].
    now destruct (rev cur).
  - simpl in H. apply andb_true_iff in H as [Hc Hs].
    apply negb_true_iff in Hc.
    rewrite (not_linebreak_not_cr c Hc), Hc, (IH (c :: cur) Hs).
    simpl. now rewrite <- app_assoc.
Qed.

Lemma split_from_one_token (s cur : str) :
  forallb (fun c => negb (Text.is_space c)) s = true ->
  Text.split_from cur s =
  match rev cur ++ s with [] => [] | token => [token] end.
Proof.
  revert cur; induction s as [|c s IH]; intros cur H; simpl.
  - rewrite app_nil_r. destruct cur as [|x cur]; [reflexivity|].
    simpl. destruct (rev cur ++ [x]) eqn:E; [|reflexivity].
    now destruct (rev cur).
  - simpl in H. apply andb_true_iff in H as [Hc Hs].
    apply negb_true_iff in Hc.
    rewrite Hc, (IH (c :: cur) Hs). simpl. now rewrite <- app_assoc.
Qed.

Lemma startswith_forallb (P : char -> bool) (s prefix : str) :
  forallb P s = true -> Text.startswith s prefix = true ->
  forallb P prefix = true.
Proof.
  revert s; induction prefix as [|p prefix IH]; intros [|c s]; simpl;
    try congruence; try reflexivity.
  intros Hs H. apply andb_true_iff in Hs as [Hc Hs].
  apply andb_true_iff in H as [Hp H]. apply N.eqb_eq in Hp. subst c.
  rewrite Hc. simpl. now apply (IH s).
Qed.

(** *** [sorted(set(...))] *)

Lemma insert_sorted_perm (x : str) (l : list str) :
  Permutation (Text.insert_sorted x l) (x :: l).
Proof.
  induction l as [|y l IH]; simpl; [reflexivity|].
  destruct (Text.leb x y); [reflexivity|].
  rewrite IH. apply perm_swap.
Qed.

Lemma sorted_perm (l : list str) : Permutation (Text.sorted l) l.
Proof.
  induction l as [|x l IH]; simpl; [reflexivity|].
  rewrite insert_sorted_perm. now constructor.
Qed.

Lemma sorted_set_NoDup (l : list str) : NoDup (Text.sorted_set l).
Proof.
  unfold Text.sorted_set.
  apply (Permutation_NoDup (Permutation_sym (sorted_perm _))).
  apply NoDup_nodup.
Qed.

Lemma sorted_set_In (x : str) (l : list str) :
  In x (Text.sorted_set l) <-> In x l.
Proof.
  unfold Text.sorted_set. split; intros H.
  - apply (Permutation_in _ (sorted_perm _)) in H. now apply nodup_In in H.
  - apply (Permutation_in _ (Permutation_sym (sorted_perm _))).
    now apply nodup_In.
Qed.

(** ** The console *)

Lemma text_eqb_refl (a : str) : Text.eqb a a = true.
Proof. now apply text_eqb_eq. Qed.

Lemma bind_emit {B} (e : event) (k : unit -> M B) :
  bind (emit e) k = (e :: fst (k tt), snd (k tt)).
Proof. unfold bind, emit. now destruct (k tt). Qed.

Lemma bind_ret {A B} (a : A) (k : A -> M B) : bind (ret a) k = k a.
Proof. unfold bind, ret. now destruct (k a). Qed.

Lemma bind_lift_done {A B} (a : A) (k : A -> M B) : bind (lift (Done a)) k = k a.
Proof. exact (bind_ret a k). Qed.

Lemma bind_returned {A B} (m : M A) (a : A) (k : A -> M B) :
  snd m = Done a -> bind m k = (fst m ++ fst (k a), snd (k a)).
Proof. destruct m as [t o]. simpl. intros ->. simpl. now destruct (k a). Qed.

Lemma console_print_ok (r : renderable) :
  console_error r = None -> console_print r = emit (Printed r).
Proof. unfold console_print. now intros ->. Qed.

Lemma console_print_raises (r : renderable) (e : exn) :
  console_error r = Some e -> console_print r = raise e.
Proof. unfold console_print. now intros ->. Qed.

Lemma bind_print {B} (r : renderable) (k : unit -> M B) :
  console_error r = None ->
  bind (console_print r) k = (Printed r :: fst (k tt), snd (k tt)).
Proof. intros H. now rewrite (console_print_ok r H), bind_emit. Qed.

Lemma bind_print_raises {B} (r : renderable) (e : exn) (k : unit -> M B) :
  console_error r = Some e -> bind (console_print r) k = ([], Raised e).
Proof. intros H. now rewrite (console_print_raises r H). Qed.

(** A call of [console.print] prints and returns, or raises and prints
    nothing. *)
Lemma console_print_cases (r : renderable) :
  console_print r = ([Printed r], Done tt)
  \/ exists e, console_print r = ([], Raised e).
Proof.
  unfold console_print. destruct (console_error r) as [e|]; [right|left].
  - now exists e.
  - reflexivity.
Qed.

(** The lines that hold no outside text have their tags balanced and no
    surrogate: printing them does not raise, whatever [Style.normalize] is. *)
Ltac own_line :=
  unfold console_error, markup_error, Markup.raises;
  cbv -[Text.eqb]; rewrite ?text_eqb_refl; reflexivity.

Lemma renders_started : console_error MSG_started = None.
Proof. own_line. Qed.

Lemma renders_deptry_banner : console_error MSG_deptry_banner = None.
Proof. own_line. Qed.

Lemma renders_deptry_failed : console_error MSG_deptry_failed = None.
Proof. own_line. Qed.

Lemma renders_pip_banner : console_error MSG_pip_banner = None.
Proof. own_line. Qed.

Lemma renders_unexpected_status : console_error MSG_unexpected_status = None.
Proof. own_line. Qed.

Lemma renders_issues : console_error MSG_issues = None.
Proof. own_line. Qed.

Lemma renders_warnings_only : console_error MSG_warnings_only = None.
Proof. own_line. Qed.

Lemma renders_success : console_error MSG_success = None.
Proof. own_line. Qed.

(** ** The exit policy *)

Lemma is_empty_false_iff {A} (l : list A) : is_empty l = false <-> l <> [].
Proof. destruct l; simpl; split; congruence. Qed.

(** The end of [main], with the lines it prints called by their names. *)
Lemma exit_policy_unfold (A : Type) (missing unused : list A) (flag : bool) :
  exit_policy missing unused flag
  = if negb (is_empty missing) || (negb (is_empty unused) && flag) then
      console_print MSG_issues ;; sys_exit 1
    else
      (if negb (is_empty unused) && negb flag
       then console_print MSG_warnings_only else ret tt) ;;
      console_print MSG_success.
Proof. reflexivity. Qed.

Lemma exit_policy_eq (A : Type) (missing unused : list A) (flag : bool) :
  exit_policy missing unused flag
  = if negb (is_empty missing) || (negb (is_empty unused) && flag)
    then ([Printed MSG_issues], Exited 1)
    else if negb (is_empty unused)
         then ([Printed MSG_warnings_only; Printed MSG_success], Done tt)
         else ([Printed MSG_success], Done tt).
Proof.
  rewrite exit_policy_unfold.
  destruct (is_empty missing), (is_empty unused), flag; cbn [negb orb andb];
    rewrite ?(bind_print _ _ renders_issues),
      ?(bind_print _ _ renders_warnings_only), ?bind_ret,
      ?(console_print_ok _ renders_success);
    reflexivity.
Qed.

Lemma exit_policy_cases (A : Type) (missing unused : list A) (flag : bool) :
  (snd (exit_policy missing unused flag) = Exited 1
   <-> missing <> [] \/ (unused <> [] /\ flag = true))
  /\ (exit_status (snd (exit_policy missing unused flag)) = 1%Z
      <-> missing <> [] \/ (unused <> [] /\ flag = true))
  /\ (forall x rest, exit_policy (x :: rest) unused flag
                     = ([Printed MSG_issues], Exited 1))
  /\ (forall x rest, exit_policy missing (x :: rest) true
                     = ([Printed MSG_issues], Exited 1))
  /\ (forall x rest, exit_policy (@nil A) (x :: rest) false
                     = ([Printed MSG_warnings_only; Printed MSG_success], Done tt))
  /\ exit_policy (@nil A) (@nil A) flag = ([Printed MSG_success], Done tt).
Proof.
  assert (Hcases :
    snd (exit_policy missing unused flag) = Exited 1 /\
      (missing <> [] \/ (unused <> [] /\ flag = true))
    \/ snd (exit_policy missing unused flag) = Done tt /\
      ~ (missing <> [] \/ (unused <> [] /\ flag = true))).
  { rewrite exit_policy_eq. destruct missing as [|m missing].
    - destruct unused as [|u unused].
      + right. split; [now destruct flag|]. intros [H|[H _]]; now apply H.
      + destruct flag.
        * left. split; [reflexivity|]. right. split; [discriminate|reflexivity].
        * right. split; [reflexivity|]. intros [H|[_ H]]; [now apply H|discriminate].
    - left. split; [reflexivity|]. left. discriminate. }
  split; [|split; [|split; [|split; [|split]]]].
  - split; intros H.
    + destruct Hcases as [[_ Hc]|[Hd _]]; [exact Hc|congruence].
    + destruct Hcases as [[He _]|[_ Hn]]; [exact He|contradiction].
  - split; intros H.
    + destruct Hcases as [[_ Hc]|[Hd _]]; [exact Hc|].
      rewrite Hd in H. discriminate.
    + destruct Hcases as [[He _]|[_ Hn]]; [now rewrite He|contradiction].
  - intros x rest. rewrite exit_policy_eq. reflexivity.
  - intros x rest. rewrite exit_policy_eq. destruct missing; reflexivity.
  - intros x rest. rewrite exit_policy_eq. reflexivity.
  - rewrite exit_policy_eq. now destruct flag.
Qed.

(** ** The fail-on-warn flag *)

(** C10. The flag is set exactly when the configured value, stripped and
    lowercased, is the text [true].  The configured value is that of
    [INPUT_FAIL_ON_WARN] when it is set and not empty, else that of
    [INPUT_FAIL-ON-WARN] when it is set and not empty, else [false]; so with
    neither set the flag is unset, and values such as [1] or [yes] leave it
    unset too. *)
Theorem C10_fail_on_warn :
  let configured :=
    match getenv (py "INPUT_FAIL_ON_WARN") with
    | Some (c :: v) => c :: v
    | _ =>
        match getenv (py "INPUT_FAIL-ON-WARN") with
        | Some (c :: v) => c :: v
        | _ => py "false"
        end
    end in
  (fail_on_warn = true <-> lower (Text.strip configured) = py "true")
  /\ fail_on_warn =
     match getenv (py "INPUT_FAIL_ON_WARN") with
     | Some (c :: v) => Text.eqb (lower (Text.strip (c :: v))) (py "true")
     | _ =>
         match getenv (py "INPUT_FAIL-ON-WARN") with
         | Some (c :: v) => Text.eqb (lower (Text.strip (c :: v))) (py "true")
         | _ => false
         end
     end
  /\ lower (Text.strip (py "1")) <> py "true"
  /\ lower (Text.strip (py "yes")) <> py "true"
  /\ lower (Text.strip (py " True ")) = py "true".
Proof.
  cbv zeta. split; [|split; [|split; [|split]]].
  - unfold fail_on_warn, fail_on_warn_raw, or_env.
    destruct (getenv (py "INPUT_FAIL_ON_WARN")) as [[|c v]|];
      destruct (getenv (py "INPUT_FAIL-ON-WARN")) as [[|c' v']|];
      apply text_eqb_eq.
  - unfold fail_on_warn, fail_on_warn_raw, or_env.
    destruct (getenv (py "INPUT_FAIL_ON_WARN")) as [[|c v]|];
      destruct (getenv (py "INPUT_FAIL-ON-WARN")) as [[|c' v']|];
      reflexivity.
  - vm_compute. discriminate.
  - vm_compute. discriminate.
  - reflexivity.
Qed.

(** ** The structured parser *)

Lemma bind_exited {A B} (t : list event) (code : Z) (m : M A) (k : A -> M B) :
  m = (t, Exited code) -> bind m k = (t, Exited code).
Proof. intros ->. reflexivity. Qed.

(** C7. Standard output that is empty or made of whitespace only parses to
    two empty lists: nothing is printed, nothing is raised and [json.loads]
    is not consulted. *)
Theorem C7_blank_stdout :
  forall stdout : str,
    forallb Text.is_space stdout = true ->
    parse_deptry_report stdout = ([], Done ([], [])).
Proof.
  intros stdout H. unfold parse_deptry_report, Text.strip.
  now rewrite (strip_by_all Text.is_space stdout H).
Qed.

(** What the parser does with a text that [json.loads] rejects, by what
    becomes of its two prints. *)
Lemma parse_deptry_report_not_json (stdout detail : str) :
  Text.strip stdout <> [] ->
  json_loads stdout = inl detail ->
  parse_deptry_report stdout
  = match console_error (MSG_unparsable detail) with
    | Some e => ([], Raised e)
    | None =>
        match console_error (Markup stdout) with
        | Some e => ([Printed (MSG_unparsable detail)], Raised e)
        | None =>
            ([Printed (MSG_unparsable detail); Printed (Markup stdout)], Exited 2)
        end
    end.
Proof.
  intros Hblank Hloads. unfold parse_deptry_report.
  apply is_empty_false_iff in Hblank. rewrite Hblank, Hloads.
  fold (MSG_unparsable detail).
  destruct (console_error (MSG_unparsable detail)) as [e|] eqn:E1.
  - now rewrite (bind_print_raises _ _ E1).
  - rewrite (bind_print _ _ E1).
    destruct (console_error (Markup stdout)) as [e|] eqn:E2.
    + now rewrite (bind_print_raises _ _ E2).
    + now rewrite (bind_print _ _ E2).
Qed.

Lemma parse_deptry_report_malformed (stdout detail : str) :
  Text.strip stdout <> [] ->
  json_loads stdout = inl detail ->
  console_error (MSG_unparsable detail) = None ->
  console_error (Markup stdout) = None ->
  parse_deptry_report stdout
  = ([Printed (MSG_unparsable detail); Printed (Markup stdout)], Exited 2).
Proof.
  intros Hblank Hloads H1 H2.
  now rewrite (parse_deptry_report_not_json Hblank Hloads), H1, H2.
Qed.

Lemma entry_name_object (members : list (str * json)) :
  entry_name (JObj members) = Done (spec_entry_name members).
Proof.
  unfold entry_name, spec_entry_name, py_or, dict_get.
  destruct (lookup members (py "module")) as [v|];
    destruct (lookup members (py "name")) as [w|]; simpl; reflexivity.
Qed.

Lemma collect_names_cons (acc : list json) (item : json) (items : list json) :
  collect_names acc (item :: items)
  = match entry_name item with
    | Done n => collect_names (acc ++ [n]) items
    | Exited c => Exited c
    | Raised e => Raised e
    end.
Proof. unfold collect_names. simpl. now destruct (entry_name item). Qed.

Lemma collect_names_objects (entries : list (list (str * json))) (acc : list json) :
  collect_names acc (map JObj entries) = Done (acc ++ map spec_entry_name entries).
Proof.
  revert acc; induction entries as [|d entries IH]; intros acc.
  - simpl. now rewrite app_nil_r.
  - rewrite map_cons, collect_names_cons, entry_name_object, IH.
    now rewrite <- app_assoc.
Qed.

Lemma names_of_objects (data : json) (key : str) (entries : list (list (str * json))) :
  get_or_empty data key = Done (JArr (map JObj entries)) ->
  names_of data key = Done (map spec_entry_name entries).
Proof.
  intros H. unfold names_of. rewrite H. simpl.
  exact (collect_names_objects entries []).
Qed.

(** When [json.loads] reads the output as an object whose [missing] and
    [unused] members (an absent one counting as an empty array) are arrays of
    objects, every entry yields one name, in the order of the entries: its
    [module] field when that is truthy, else its [name] field when that is
    truthy, else the string form of the entry. *)
Lemma parse_deptry_report_objects :
  forall (stdout : str) (data : json) (missing unused : list (list (str * json))),
    Text.strip stdout <> [] ->
    json_loads stdout = inr data ->
    get_or_empty data (py "missing") = Done (JArr (map JObj missing)) ->
    get_or_empty data (py "unused") = Done (JArr (map JObj unused)) ->
    parse_deptry_report stdout
    = ([], Done (map spec_entry_name missing, map spec_entry_name unused)).
Proof.
  intros stdout data missing unused Hblank Hloads Hm Hu.
  unfold parse_deptry_report. apply is_empty_false_iff in Hblank.
  rewrite Hblank, Hloads. unfold deptry_findings.
  now rewrite (names_of_objects _ _ _ Hm), (names_of_objects _ _ _ Hu).
Qed.

(** *** The names are truthy *)

Lemma entry_name_truthy (item n : json) :
  entry_name item = Done n -> truthy n = true.
Proof.
  destruct item; simpl; try discriminate. intros H. injection H as <-.
  unfold py_or.
  destruct (truthy (dict_get members (py "module"))) eqn:E1; [exact E1|].
  destruct (truthy (dict_get members (py "name"))) eqn:E2; [exact E2|].
  reflexivity.
Qed.

Lemma collect_names_truthy (items : list json) (acc names : list json) :
  forallb truthy acc = true ->
  collect_names acc items = Done names ->
  forallb truthy names = true.
Proof.
  revert acc; induction items as [|item items IH]; intros acc Hacc.
  - unfold collect_names. simpl. congruence.
  - rewrite collect_names_cons.
    destruct (entry_name item) as [n| |] eqn:E; try discriminate.
    apply IH. rewrite forallb_app, Hacc. simpl.
    now rewrite (entry_name_truthy item E).
Qed.

Lemma names_of_truthy (data : json) (key : str) (names : list json) :
  names_of data key = Done names -> forallb truthy names = true.
Proof.
  unfold names_of. destruct (get_or_empty data key) as [v| |]; try discriminate.
  destruct (iterate v) as [items| |]; try discriminate.
  now apply (collect_names_truthy items []).
Qed.

(** ** The line-oriented parser *)

Lemma allowed_char_has (P : char -> bool) (c : char) :
  forallb P allowed_chars = true ->
  Text.mem c allowed_chars = true -> P c = true.
Proof.
  intros HP Hc. unfold Text.mem in Hc.
  apply existsb_exists in Hc as [x [Hin Heq]].
  apply N.eqb_eq in Heq. subst x.
  exact (proj1 (forallb_forall _ _) HP _ Hin).
Qed.

Lemma valid_token_has (P : char -> bool) (token : str) :
  forallb P allowed_chars = true ->
  forallb (fun c => Text.mem c allowed_chars) token = true ->
  forallb P token = true.
Proof.
  intros HP H. apply forallb_forall. intros c Hc.
  apply (allowed_char_has P c HP).
  exact (proj1 (forallb_forall _ _) H c Hc).
Qed.

Lemma startswith_excluded (P : char -> bool) (s prefix : str) :
  forallb P s = true -> forallb P prefix = false ->
  Text.startswith s prefix = false.
Proof.
  intros Hs Hp. destruct (Text.startswith s prefix) eqn:E; [|reflexivity].
  rewrite (startswith_forallb P s prefix Hs E) in Hp. discriminate.
Qed.

Lemma mem_excluded (c : char) (s : str) :
  forallb (fun x => negb (N.eqb c x)) s = true -> Text.mem c s = false.
Proof.
  induction s as [|x s IH]; simpl; [reflexivity|].
  intros H. apply andb_true_iff in H as [Hx Hs].
  apply negb_true_iff in Hx. now rewrite Hx, IH.
Qed.

Lemma for_each_skip {A S} (step : S -> A -> outcome S) (x : A) (before after : list A) :
  (forall acc, step acc x = Done acc) ->
  forall acc, for_each step acc (before ++ x :: after)
              = for_each step acc (before ++ after).
Proof.
  intros Hx. induction before as [|y before IH]; intros acc; simpl.
  - now rewrite Hx.
  - destruct (step acc y); [apply IH|reflexivity|reflexivity].
Qed.

Lemma scan_line_valid_token (modules : list str) (token : str) :
  token <> [] ->
  forallb (fun c => Text.mem c allowed_chars) token = true ->
  Text.startswith_any (lower token) (header_prefixes ++ noise_prefixes) = false ->
  Text.startswith_any token marker_prefixes = false ->
  scan_line modules token = Done (modules ++ [token]).
Proof.
  intros Hne Hvalid Hnoise Hmarker.
  unfold Text.startswith_any in Hnoise. rewrite existsb_app in Hnoise.
  apply orb_false_iff in Hnoise as [Hheader Hnoise].
  assert (Hstrip : Text.strip token = token).
  { apply strip_by_none, valid_token_has; [reflexivity|exact Hvalid]. }
  assert (Hcolon : Text.mem 58%N token = false).
  { apply mem_excluded, valid_token_has; [reflexivity|exact Hvalid]. }
  assert (Hbullet : Text.startswith_any token bullet_prefixes = false).
  { unfold Text.startswith_any, bullet_prefixes. simpl.
    rewrite !(startswith_excluded (fun c => Text.mem c allowed_chars) token _ Hvalid)
      by reflexivity.
    reflexivity. }
  assert (Hsplit : Text.split token = [token]).
  { unfold Text.split. rewrite split_from_one_token.
    - simpl. destruct token; [contradiction|reflexivity].
    - apply valid_token_has; [reflexivity|exact Hvalid]. }
  assert (Hcomma : Text.strip_chars (py ",") token = token).
  { apply strip_by_none, valid_token_has; [reflexivity|exact Hvalid]. }
  unfold scan_line. rewrite Hstrip.
  destruct token as [|first rest] eqn:Etoken; [contradiction|].
  rewrite <- Etoken in *.
  unfold Text.startswith_any. rewrite Hheader, Hnoise.
  fold (Text.startswith_any token marker_prefixes). rewrite Hmarker.
  rewrite Hcolon, andb_false_r.
  fold (Text.startswith_any token bullet_prefixes). rewrite Hbullet.
  rewrite Hsplit, Hcomma, Hvalid.
  rewrite Etoken. reflexivity.
Qed.

Lemma scan_line_header (modules : list str) (line : str) :
  Text.startswith_any (lower (Text.strip line))
    (header_prefixes ++ noise_prefixes) = true ->
  scan_line modules line = Done modules.
Proof.
  intros H. unfold Text.startswith_any in H. rewrite existsb_app in H.
  unfold scan_line. destruct (Text.strip line) as [|first rest]; [reflexivity|].
  unfold Text.startswith_any.
  apply orb_true_iff in H as [H|H]; rewrite H; [reflexivity|].
  now destruct (existsb _ header_prefixes).
Qed.

(** *** The parser always returns *)

Lemma dropwhile_head (p : char -> bool) (s : str) (c : char) (r : str) :
  Text.dropwhile p s = c :: r -> p c = false.
Proof.
  induction s as [|x s IH]; simpl; [discriminate|].
  destruct (p x) eqn:E; [exact IH|]. intros H. injection H as <- _. exact E.
Qed.

Lemma strip_by_last (p : char -> bool) (s : str) :
  Text.strip_by p s = []
  \/ exists front c, Text.strip_by p s = front ++ [c] /\ p c = false.
Proof.
  unfold Text.strip_by, Text.rstrip_by.
  destruct (Text.dropwhile p (rev (Text.lstrip_by p s))) as [|c r] eqn:E.
  - now left.
  - right. exists (rev r), c. split; [reflexivity|].
    exact (dropwhile_head p _ E).
Qed.

Lemma split_from_pending (s cur : str) :
  cur <> [] -> Text.split_from cur s <> [].
Proof.
  revert cur; induction s as [|c s IH]; intros cur Hcur; simpl.
  - destruct cur; [contradiction|discriminate].
  - destruct (Text.is_space c).
    + destruct cur; [contradiction|discriminate].
    + apply IH. discriminate.
Qed.

Lemma split_from_has_token (s cur : str) (c : char) :
  In c s -> Text.is_space c = false -> Text.split_from cur s <> [].
Proof.
  revert cur; induction s as [|x s IH]; intros cur Hin Hc; simpl; [contradiction|].
  destruct (Text.is_space x) eqn:Ex.
  - destruct Hin as [->|Hin]; [congruence|].
    destruct cur; [now apply IH|discriminate].
  - apply split_from_pending. discriminate.
Qed.

Lemma bullet_shape (s : str) :
  Text.startswith_any s bullet_prefixes = true ->
  exists b r, s = b :: 32%N :: r.
Proof.
  unfold Text.startswith_any, bullet_prefixes.
  change (py "- ") with [45%N; 32%N]. change (py "* ") with [42%N; 32%N].
  destruct s as [|x [|y r]]; cbn -[N.eqb].
  - discriminate.
  - rewrite !andb_false_r. discriminate.
  - intros H. exists x, r.
    destruct (N.eqb_spec 32 y) as [<-|Hy]; [reflexivity|].
    rewrite !andb_false_r in H. discriminate.
Qed.

Lemma scan_line_total (modules : list str) (line : str) :
  exists modules', scan_line modules line = Done modules'.
Proof.
  unfold scan_line.
  destruct (strip_by_last Text.is_space line) as [E|(front & c & E & Hc)];
    fold (Text.strip line) in E; rewrite E; [now exists modules|].
  destruct (front ++ [c]) as [|first rest] eqn:Eclean; [now exists modules|].
  destruct (Text.startswith_any _ header_prefixes); [now exists modules|].
  destruct (Text.startswith_any _ noise_prefixes); [now exists modules|].
  destruct (Text.startswith_any _ marker_prefixes); [now exists modules|].
  destruct (isdigit first && Text.mem 58%N (first :: rest)); [now exists modules|].
  assert (Hin : In c (first :: rest)).
  { rewrite <- Eclean. apply in_or_app. right. now left. }
  assert (Hsplit :
    Text.split (if Text.startswith_any (first :: rest) bullet_prefixes
                then skipn 2 (first :: rest) else first :: rest) <> []).
  { destruct (Text.startswith_any (first :: rest) bullet_prefixes) eqn:Eb.
    - destruct (bullet_shape _ Eb) as (b & r & Er). rewrite Er in *. simpl skipn.
      apply (split_from_has_token r [] c); [|exact Hc].
      destruct front as [|f1 [|f2 front]]; simpl in Eclean.
      + discriminate.
      + injection Eclean as _ Hspace _. subst c. discriminate Hc.
      + injection Eclean as _ _ Hr. rewrite <- Hr. apply in_or_app. right. now left.
    - apply (split_from_has_token (first :: rest) [] c Hin Hc). }
  destruct (Text.split _) as [|token others]; [contradiction|].
  destruct (is_empty _); [now exists modules|].
  destruct (forallb _ _); eauto.
Qed.

Lemma for_each_total {A S} (step : S -> A -> outcome S) (xs : list A) :
  (forall acc x, exists acc', step acc x = Done acc') ->
  forall acc, exists acc', for_each step acc xs = Done acc'.
Proof.
  intros Hstep. induction xs as [|x xs IH]; intros acc; simpl; [eauto|].
  destruct (Hstep acc x) as [acc' ->]. apply IH.
Qed.

(** *** The order of the result *)

Lemma text_leb_total (a b : str) : Text.leb a b = false -> Text.leb b a = true.
Proof.
  revert b; induction a as [|x a IH]; intros [|y b]; simpl; try congruence.
  intros H. apply orb_false_iff in H as [Hlt H].
  apply N.ltb_ge in Hlt.
  destruct (N.eqb_spec x y) as [->|Hne].
  - simpl in H. rewrite (IH b H), N.eqb_refl. now rewrite orb_true_r.
  - assert (Hyx : (y < x)%N) by lia. apply N.ltb_lt in Hyx. now rewrite Hyx.
Qed.

Lemma insert_sorted_sorted (x : str) (l : list str) :
  Sorted in_order l -> Sorted in_order (Text.insert_sorted x l).
Proof.
  induction l as [|y l IH]; simpl; intros Hs.
  - repeat constructor.
  - destruct (Text.leb x y) eqn:E.
    + constructor; [exact Hs|]. constructor. exact E.
    + inversion Hs as [|? ? Hs' Hhd]; subst. constructor; [now apply IH|].
      apply text_leb_total in E.
      destruct l as [|z l]; simpl.
      * constructor. exact E.
      * destruct (Text.leb x z); constructor; [exact E|].
        now inversion Hhd.
Qed.

Lemma sorted_is_sorted (l : list str) : Sorted in_order (Text.sorted l).
Proof.
  induction l as [|x l IH]; simpl; [constructor|].
  now apply insert_sorted_sorted.
Qed.

(** The line-oriented parser returns for every text, and what it returns is
    in increasing order and has no duplicate. *)
Lemma parse_pip_check_output_total (stdout : str) :
  exists names,
    parse_pip_check_output stdout = Done names
    /\ NoDup names /\ Sorted in_order names.
Proof.
  unfold parse_pip_check_output.
  destruct (for_each_total scan_line (Text.splitlines stdout) scan_line_total [])
    as [modules ->].
  exists (Text.sorted_set modules). split; [reflexivity|]. split.
  - apply sorted_set_NoDup.
  - apply sorted_is_sorted.
Qed.

Lemma scan_line_keeps (modules modules' : list str) (line x : str) :
  scan_line modules line = Done modules' -> In x modules -> In x modules'.
Proof.
  unfold scan_line. intros H Hx.
  repeat match type of H with
         | (if ?b then _ else _) = _ => destruct b
         | match ?t with _ => _ end = _ => destruct t
         | (let _ := _ in _) = _ => cbv zeta in H
         end;
    try discriminate; injection H as <-; auto using in_or_app.
Qed.

Lemma for_each_scan_keeps (lines : list str) (acc modules : list str) (x : str) :
  for_each scan_line acc lines = Done modules -> In x acc -> In x modules.
Proof.
  revert acc; induction lines as [|line lines IH]; intros acc H Hx; simpl in H.
  - now injection H as <-.
  - destruct (scan_line acc line) as [acc'| |] eqn:E; try discriminate.
    apply (IH acc' H). eapply scan_line_keeps; eassumption.
Qed.

Lemma for_each_scan_token (lines : list str) (acc modules : list str) (token : str) :
  (forall m, scan_line m token = Done (m ++ [token])) ->
  In token lines ->
  for_each scan_line acc lines = Done modules -> In token modules.
Proof.
  intros Htoken. revert acc; induction lines as [|line lines IH];
    intros acc Hin H; [contradiction|]. simpl in H.
  destruct (scan_line acc line) as [acc'| |] eqn:E; try discriminate.
  destruct Hin as [->|Hin].
  - rewrite Htoken in E. injection E as <-.
    eapply for_each_scan_keeps; [exact H|]. apply in_or_app. right. now left.
  - exact (IH acc' Hin H).
Qed.

(** C4, as amended.  A line that is one token of ASCII letters, digits,
    hyphen, underscore and dot, that does not begin (lowercased) with a header
    or noise prefix and does not begin with a separator marker, adds exactly
    that token: an output made of that line alone parses to that token alone,
    and an output that has such a line among its lines parses to a list that
    holds the token.  A line whose stripped, lowercased form begins with a
    header or noise prefix adds nothing: the loop goes on as if the line were
    not there. *)
Theorem C4_line_tokens :
  (forall (modules : list str) (token : str),
      token <> [] ->
      forallb (fun c => Text.mem c allowed_chars) token = true ->
      Text.startswith_any (lower token) (header_prefixes ++ noise_prefixes) = false ->
      Text.startswith_any token marker_prefixes = false ->
      scan_line modules token = Done (modules ++ [token])
      /\ parse_pip_check_output token = Done [token]
      /\ forall stdout,
           In token (Text.splitlines stdout) ->
           exists names,
             parse_pip_check_output stdout = Done names /\ In token names)
  /\ (forall (modules : list str) (line : str),
         Text.startswith_any (lower (Text.strip line))
           (header_prefixes ++ noise_prefixes) = true ->
         scan_line modules line = Done modules
         /\ forall before after,
              for_each scan_line modules (before ++ line :: after)
              = for_each scan_line modules (before ++ after)).
Proof.
  split.
  - intros modules token Hne Hvalid Hnoise Hmarker.
    split; [now apply scan_line_valid_token|]. split.
    + unfold parse_pip_check_output, Text.splitlines.
      rewrite splitlines_from_one_line
        by (apply valid_token_has; [reflexivity|exact Hvalid]).
      simpl rev. rewrite app_nil_l.
      destruct token as [|first rest] eqn:Etoken; [contradiction|].
      rewrite <- Etoken in *. simpl for_each.
      rewrite (scan_line_valid_token [] Hne Hvalid Hnoise Hmarker).
      simpl. reflexivity.
    + intros stdout Hin. unfold parse_pip_check_output.
      destruct (for_each_total scan_line (Text.splitlines stdout) scan_line_total [])
        as [collected Hc].
      rewrite Hc. exists (Text.sorted_set collected). split; [reflexivity|].
      apply sorted_set_In. eapply for_each_scan_token; [|exact Hin|exact Hc].
      intros m. now apply scan_line_valid_token.
  - intros modules line H. split; [now apply scan_line_header|].
    intros before after. apply for_each_skip.
    intros acc. now apply scan_line_header.
Qed.

(** ** The runners *)

Lemma bind_run_command {B} (command : list str) (cwd : Path)
    (k : CompletedProcess -> M B) :
  bind (run_command command cwd) k
  = (Ran command cwd :: fst (k (subprocess_run command cwd)),
     snd (k (subprocess_run command cwd))).
Proof.
  unfold run_command. rewrite bind_emit. simpl. unfold bind, ret.
  now destruct (k (subprocess_run command cwd)).
Qed.

Lemma find_first {A} (f : A -> bool) (l : list A) (x : A) :
  find f l = Some x ->
  exists earlier later,
    l = earlier ++ x :: later
    /\ forallb (fun c => negb (f c)) earlier = true /\ f x = true.
Proof.
  induction l as [|y l IH]; simpl; [discriminate|].
  destruct (f y) eqn:E.
  - intros H. injection H as <-. now exists [], l.
  - intros H. destruct (IH H) as (earlier & later & -> & He & Hx).
    exists (y :: earlier), later. simpl. now rewrite E, He.
Qed.

Lemma find_none_forallb {A} (f : A -> bool) (l : list A) :
  find f l = None -> forallb (fun c => negb (f c)) l = true.
Proof.
  induction l as [|y l IH]; simpl; [reflexivity|].
  destruct (f y); [discriminate|]. exact IH.
Qed.

Lemma run_pip_check_reqs_commands (path : Path) :
  exists k,
    run_pip_check_reqs path
    = (Printed MSG_pip_banner
       :: Ran (check_command (py "pip-missing-reqs") path
                 (select_requirements_file path)) path
       :: Ran (check_command (py "pip-extra-reqs") path
                 (select_requirements_file path)) path
       :: fst (k (missing_result path) (extra_result path)),
       snd (k (missing_result path) (extra_result path))).
Proof.
  unfold run_pip_check_reqs, missing_result, extra_result.
  rewrite (bind_print _ _ renders_pip_banner). cbv zeta.
  destruct (select_requirements_file path) as [r|];
    cbn [is_empty check_command manifest_argument app];
    rewrite bind_run_command, bind_run_command; cbn [fst snd];
    now eexists (fun m e => _).
Qed.

(** C9. The candidates are [requirements.txt], [requirements-dev.txt] and
    [requirements.in] in the target directory, in that order; the manifest is
    the first of them that exists, and there is none exactly when no candidate
    exists.  The runner invokes the missing check and then the extra check,
    each on the target directory and, when there is a manifest, with
    [--requirements-file] and the manifest after it; with no manifest neither
    command has that argument. *)
Theorem C9_manifest_selection :
  forall path : Path,
    candidates path
    = [path_join path (py "requirements.txt");
       path_join path (py "requirements-dev.txt");
       path_join path (py "requirements.in")]
    /\ match select_requirements_file path with
       | Some r =>
           exists earlier later,
             candidates path = earlier ++ r :: later
             /\ forallb (fun c => negb (path_exists c)) earlier = true
             /\ path_exists r = true
       | None => forallb (fun c => negb (path_exists c)) (candidates path) = true
       end
    /\ exists rest,
         fst (run_pip_check_reqs path)
         = Printed MSG_pip_banner
           :: Ran ([py "pip-missing-reqs"; path_str path]
                   ++ manifest_argument (select_requirements_file path)) path
           :: Ran ([py "pip-extra-reqs"; path_str path]
                   ++ manifest_argument (select_requirements_file path)) path
           :: rest.
Proof.
  intros path. split; [reflexivity|]. split.
  - unfold select_requirements_file.
    destruct (find path_exists (candidates path)) as [r|] eqn:E.
    + now apply find_first.
    + now apply find_none_forallb.
  - destruct (run_pip_check_reqs_commands path) as [k ->].
    cbn [fst]. eexists. reflexivity.
Qed.

(** Printing the diagnostics returns or raises: it never exits. *)
Lemma print_diagnostics_cases (border_style : str) (diagnostics : list (str * str)) :
  snd (print_diagnostics border_style diagnostics) = Done tt
  \/ exists e, snd (print_diagnostics border_style diagnostics) = Raised e.
Proof.
  induction diagnostics as [|[title text] rest IH]; [now left|].
  cbn [print_diagnostics].
  destruct (console_error (PanelFit text (title ++ py " stderr") border_style))
    as [e|] eqn:E.
  - right. exists e. now rewrite (bind_print_raises _ _ E).
  - rewrite (bind_print _ _ E). exact IH.
Qed.

(** The two commands of the runner, as it builds them. *)
Lemma run_pip_check_reqs_eq (path : Path) :
  run_pip_check_reqs path
  = (Printed MSG_pip_banner
     :: Ran (check_command (py "pip-missing-reqs") path
               (select_requirements_file path)) path
     :: Ran (check_command (py "pip-extra-reqs") path
               (select_requirements_file path)) path
     :: fst (pip_check_reqs_verdict (missing_result path) (extra_result path)),
     snd (pip_check_reqs_verdict (missing_result path) (extra_result path))).
Proof.
  unfold run_pip_check_reqs. rewrite (bind_print _ _ renders_pip_banner).
  cbv zeta.
  assert (Hm : (if is_empty (manifest_argument (select_requirements_file path))
                then [py "pip-missing-reqs"; path_str path]
                else [py "pip-missing-reqs"; path_str path]
                     ++ manifest_argument (select_requirements_file path))
               = check_command (py "pip-missing-reqs") path
                   (select_requirements_file path))
    by now destruct (select_requirements_file path).
  assert (He : (if is_empty (manifest_argument (select_requirements_file path))
                then [py "pip-extra-reqs"; path_str path]
                else [py "pip-extra-reqs"; path_str path]
                     ++ manifest_argument (select_requirements_file path))
               = check_command (py "pip-extra-reqs") path
                   (select_requirements_file path))
    by now destruct (select_requirements_file path).
  fold (manifest_argument (select_requirements_file path)).
  rewrite Hm, He, bind_run_command, bind_run_command.
  fold (missing_result path). fold (extra_result path).
  reflexivity.
Qed.

(** When one of the two statuses is neither 0 nor 1 the runner prints the
    failure line and a panel for each standard error that is not empty, and
    then exits with the first status that is not 0, or with 2: unless a panel
    raises. *)
Lemma run_pip_check_reqs_unexpected_status (path : Path) :
  not_in_0_1 (returncode (missing_result path))
  || not_in_0_1 (returncode (extra_result path)) = true ->
  run_pip_check_reqs path
  = ([Printed MSG_pip_banner;
      Ran (check_command (py "pip-missing-reqs") path (select_requirements_file path)) path;
      Ran (check_command (py "pip-extra-reqs") path (select_requirements_file path)) path;
      Printed MSG_unexpected_status]
     ++ fst (print_diagnostics (py "red")
               (add_diagnostic (py "pip-extra-reqs") (stderr (extra_result path))
                  (add_diagnostic (py "pip-missing-reqs")
                     (stderr (missing_result path)) []))),
     match snd (print_diagnostics (py "red")
                  (add_diagnostic (py "pip-extra-reqs") (stderr (extra_result path))
                     (add_diagnostic (py "pip-missing-reqs")
                        (stderr (missing_result path)) []))) with
     | Done _ => Exited (or_code (returncode (missing_result path))
                           (or_code (returncode (extra_result path)) 2))
     | Exited c => Exited c
     | Raised e => Raised e
     end).
Proof.
  intros H. rewrite run_pip_check_reqs_eq. unfold pip_check_reqs_verdict.
  cbv zeta. rewrite H. cbv iota.
  rewrite (bind_print _ _ renders_unexpected_status).
  fold (add_diagnostic (py "pip-missing-reqs") (stderr (missing_result path)) []).
  fold (add_diagnostic (py "pip-extra-reqs") (stderr (extra_result path))
          (add_diagnostic (py "pip-missing-reqs") (stderr (missing_result path)) [])).
  destruct (print_diagnostics (py "red") _) as [t [[]|c|e]]; cbn [fst snd bind sys_exit];
    rewrite ?app_nil_r; reflexivity.
Qed.

(** The status the runner exits with is that of the missing check unless
    that is 0, and then that of the extra check: the fallback 2 is never
    used, and a missing check that ended with 1 hides the other's status. *)
Lemma unexpected_status_exit_code (m e : Z) :
  not_in_0_1 m || not_in_0_1 e = true ->
  or_code m (or_code e 2) = if Z.eqb m 0 then e else m.
Proof.
  unfold not_in_0_1, or_code. intros H.
  destruct (Z.eqb m 0) eqn:Em; [|reflexivity].
  destruct (Z.eqb e 0) eqn:Ee; [|reflexivity].
  discriminate H.
Qed.

(** ** The whole run *)

Lemma resolve_project_path_ok (raw_path : str) :
  path_exists (resolve raw_path) = true ->
  path_is_dir (resolve raw_path) = true ->
  resolve_project_path raw_path = ret (resolve raw_path).
Proof. intros He Hd. unfold resolve_project_path. now rewrite He, Hd. Qed.

(** [main], with the lines it prints called by their names. *)
Lemma main_eq :
  let raw_path := getenv_default (py "INPUT_PATH") (py ".") in
  let mode := lower (Text.strip (getenv_default (py "INPUT_MODE") (py "deptry"))) in
  main = (console_print MSG_started ;;
          console_print (MSG_checking raw_path mode fail_on_warn) ;;
          project_path <- resolve_project_path raw_path ;;
          found <- analyse mode project_path ;;
          let '(missing, unused, diagnostics) := found in
          render_table missing unused ;;
          write_summary missing unused mode ;;
          print_diagnostics (py "yellow") diagnostics ;;
          exit_policy missing unused fail_on_warn).
Proof. reflexivity. Qed.

(** Whichever mode produced the lists, a run whose analysis returned them and
    whose reporting steps return ends as the exit policy says: its last events
    and its outcome are those of [exit_policy] on the two lists and the
    flag. *)
Lemma main_ends_with_exit_policy
    (t : list event) (missing unused : list json) (diagnostics : list (str * str)) :
  let raw_path := getenv_default (py "INPUT_PATH") (py ".") in
  let mode := lower (Text.strip (getenv_default (py "INPUT_MODE") (py "deptry"))) in
  console_error (MSG_checking raw_path mode fail_on_warn) = None ->
  path_exists (resolve raw_path) = true ->
  path_is_dir (resolve raw_path) = true ->
  analyse mode (resolve raw_path) = (t, Done (missing, unused, diagnostics)) ->
  snd (render_table missing unused) = Done tt ->
  snd (write_summary missing unused mode) = Done tt ->
  snd (print_diagnostics (py "yellow") diagnostics) = Done tt ->
  snd main = snd (exit_policy missing unused fail_on_warn)
  /\ fst main
     = [Printed MSG_started; Printed (MSG_checking raw_path mode fail_on_warn)]
       ++ t ++ fst (render_table missing unused)
       ++ fst (write_summary missing unused mode)
       ++ fst (print_diagnostics (py "yellow") diagnostics)
       ++ fst (exit_policy missing unused fail_on_warn).
Proof.
  intros raw_path mode Hc He Hd Ha Ht Hs Hp. rewrite main_eq.
  fold raw_path. fold mode.
  rewrite (bind_print _ _ renders_started), (bind_print _ _ Hc).
  rewrite (resolve_project_path_ok He Hd), bind_ret, Ha.
  rewrite (@bind_returned _ _ (t, Done (missing, unused, diagnostics))
             (missing, unused, diagnostics) _ eq_refl).
  rewrite (@bind_returned _ _ _ tt _ Ht).
  rewrite (@bind_returned _ _ _ tt _ Hs).
  rewrite (@bind_returned _ _ _ tt _ Hp).
  cbn [fst snd]. split; reflexivity.
Qed.

(** C1. Whatever the two finding lists and the flag are, the end of [main]
    exits with status 1 exactly when [missing] is not empty, or [unused] is not
    empty and the flag is set, after saying that issues were detected; with
    unused findings only and the flag unset it prints the warning and then the
    success line and returns; with two empty lists it prints the success line
    alone and returns.  The policy has no mode among its arguments: in either
    mode, a run that gets as far as the policy (the opening line is rendered,
    the analysis returns two lists, and the table, the summary and the
    diagnostics are reported without an exception) ends as the policy says on
    those lists and the flag of the environment. *)
Theorem C1_exit_policy :
  (forall (A : Type) (missing unused : list A) (flag : bool),
      (snd (exit_policy missing unused flag) = Exited 1
       <-> missing <> [] \/ (unused <> [] /\ flag = true))
      /\ (exit_status (snd (exit_policy missing unused flag)) = 1%Z
          <-> missing <> [] \/ (unused <> [] /\ flag = true))
      /\ (forall x rest, exit_policy (x :: rest) unused flag
                         = ([Printed MSG_issues], Exited 1))
      /\ (forall x rest, exit_policy missing (x :: rest) true
                         = ([Printed MSG_issues], Exited 1))
      /\ (forall x rest, exit_policy (@nil A) (x :: rest) false
                         = ([Printed MSG_warnings_only; Printed MSG_success],
                            Done tt))
      /\ exit_policy (@nil A) (@nil A) flag = ([Printed MSG_success], Done tt))
  /\ (forall (t : list event) (missing unused : list json)
             (diagnostics : list (str * str)),
         let raw_path := getenv_default (py "INPUT_PATH") (py ".") in
         let mode :=
           lower (Text.strip (getenv_default (py "INPUT_MODE") (py "deptry"))) in
         console_error (MSG_checking raw_path mode fail_on_warn) = None ->
         path_exists (resolve raw_path) = true ->
         path_is_dir (resolve raw_path) = true ->
         analyse mode (resolve raw_path) = (t, Done (missing, unused, diagnostics)) ->
         snd (render_table missing unused) = Done tt ->
         snd (write_summary missing unused mode) = Done tt ->
         snd (print_diagnostics (py "yellow") diagnostics) = Done tt ->
         snd main = snd (exit_policy missing unused fail_on_warn)
         /\ (exit_status (snd main) = 1%Z
             <-> missing <> [] \/ (unused <> [] /\ fail_on_warn = true))).
Proof.
  split; [exact exit_policy_cases|].
  intros t missing unused diagnostics raw_path mode Hc He Hd Ha Ht Hs Hp.
  destruct (@main_ends_with_exit_policy t missing unused diagnostics
              Hc He Hd Ha Ht Hs Hp) as [Hend _].
  split; [exact Hend|]. rewrite Hend.
  exact (proj1 (proj2 (exit_policy_cases missing unused fail_on_warn))).
Qed.

(** ** More on the line-oriented parser *)

Lemma scan_line_shape (modules modules' tokens : list str) (line : str) :
  scan_line modules line = Done modules' ->
  scan_line [] line = Done tokens ->
  modules' = modules ++ tokens.
Proof.
  unfold scan_line. cbv zeta. intros H1 H2.
  destruct (Text.strip line) as [|first rest].
  - injection H1 as <-. injection H2 as <-. now rewrite app_nil_r.
  - repeat match type of H1 with
           | (if ?b then _ else _) = _ => destruct b
           | match ?t with _ => _ end = _ => destruct t
           end;
      try discriminate; injection H1 as <-; injection H2 as <-;
      try (now rewrite app_nil_r); reflexivity.
Qed.

Lemma scan_line_from (modules : list str) (line : str) :
  scan_line modules line = Done (modules ++ line_tokens line).
Proof.
  destruct (scan_line_total modules line) as [modules' H].
  destruct (scan_line_total [] line) as [tokens Ht].
  unfold line_tokens. rewrite Ht, H. f_equal.
  exact (scan_line_shape _ _ H Ht).
Qed.

Lemma for_each_scan_from (lines : list str) (acc : list str) :
  for_each scan_line acc lines = Done (acc ++ flat_map line_tokens lines).
Proof.
  revert acc; induction lines as [|line lines IH]; intros acc; simpl.
  - now rewrite app_nil_r.
  - rewrite scan_line_from, IH. now rewrite <- app_assoc.
Qed.

Lemma parse_pip_check_output_eq (stdout : str) :
  parse_pip_check_output stdout
  = Done (Text.sorted_set (flat_map line_tokens (Text.splitlines stdout))).
Proof.
  unfold parse_pip_check_output. now rewrite for_each_scan_from.
Qed.

Lemma line_tokens_valid (line x : str) :
  In x (line_tokens line) -> valid_name x = true /\ line_tokens line = [x].
Proof.
  unfold line_tokens, scan_line. cbv zeta.
  destruct (Text.strip line) as [|first rest]; [contradiction|].
  repeat match goal with
         | |- In _ (match (if ?b then _ else _) with _ => _ end) -> _ =>
             destruct b eqn:?
         | |- In _ (match (match ?t with _ => _ end) with _ => _ end) -> _ =>
             destruct t eqn:?
         end; simpl; try contradiction.
  intros [<-|[]]. split; [|reflexivity].
  unfold valid_name.
  match goal with
  | H1 : is_empty ?c = false, H2 : forallb _ ?c = true |- _ => now rewrite H1, H2
  end.
Qed.

Lemma text_leb_antisym (a b : str) :
  Text.leb a b = true -> Text.leb b a = true -> a = b.
Proof.
  revert b; induction a as [|x a IH]; intros [|y b]; simpl; try congruence.
  intros H1 H2.
  destruct (N.ltb_spec x y) as [Hxy|Hxy]; destruct (N.ltb_spec y x) as [Hyx|Hyx];
    try lia; simpl in H1, H2.
  - destruct (N.eqb_spec y x); [lia|discriminate].
  - destruct (N.eqb_spec x y); [lia|discriminate].
  - destruct (N.eqb_spec x y) as [->|]; [|discriminate].
    rewrite N.eqb_refl in H2. simpl in H1, H2. f_equal. now apply IH.
Qed.

Lemma text_leb_trans (a b c : str) :
  Text.leb a b = true -> Text.leb b c = true -> Text.leb a c = true.
Proof.
  revert b c; induction a as [|x a IH]; intros [|y b] [|z c]; simpl;
    try congruence.
  intros H1 H2.
  apply orb_true_iff in H1. apply orb_true_iff in H2. apply orb_true_iff.
  destruct H1 as [H1|H1]; destruct H2 as [H2|H2].
  - left. apply N.ltb_lt in H1, H2. apply N.ltb_lt. lia.
  - apply andb_true_iff in H2 as [E _]. apply N.eqb_eq in E. subst z. now left.
  - apply andb_true_iff in H1 as [E _]. apply N.eqb_eq in E. subst y. now left.
  - apply andb_true_iff in H1 as [E1 H1]. apply andb_true_iff in H2 as [E2 H2].
    apply N.eqb_eq in E1, E2. subst y z. right. rewrite N.eqb_refl. simpl.
    exact (IH _ _ H1 H2).
Qed.

Lemma in_order_strongly (l : list str) :
  Sorted in_order l -> StronglySorted in_order l.
Proof.
  apply Sorted_StronglySorted. intros a b c. apply text_leb_trans.
Qed.

(** Two lists in increasing order, without duplicates and with the same
    elements are the same list. *)
Lemma sorted_nodup_unique (l1 l2 : list str) :
  Sorted in_order l1 -> Sorted in_order l2 -> NoDup l1 -> NoDup l2 ->
  (forall x, In x l1 <-> In x l2) -> l1 = l2.
Proof.
  intros S1 S2. apply in_order_strongly in S1. apply in_order_strongly in S2.
  revert l2 S2; induction S1 as [|a l1 S1 IH Ha]; intros l2 S2 N1 N2 Hsame.
  - destruct l2 as [|b l2]; [reflexivity|].
    destruct (proj2 (Hsame b) (or_introl eq_refl)).
  - destruct l2 as [|b l2].
    + destruct (proj1 (Hsame a) (or_introl eq_refl)).
    + inversion S2 as [|? ? S2' Hb]; subst.
      inversion N1 as [|? ? Na N1']; subst. inversion N2 as [|? ? Nb N2']; subst.
      assert (Hab : a = b).
      { destruct (proj1 (Hsame a) (or_introl eq_refl)) as [E|Hin]; [now symmetry|].
        destruct (proj2 (Hsame b) (or_introl eq_refl)) as [E|Hin']; [exact E|].
        apply text_leb_antisym.
        - exact (proj1 (Forall_forall _ _) Ha b Hin').
        - exact (proj1 (Forall_forall _ _) Hb a Hin). }
      subst b. f_equal. apply IH; auto.
      intros x. split; intros Hx.
      * destruct (proj1 (Hsame x) (or_intror Hx)) as [E|Hin]; [|exact Hin].
        subst x. contradiction.
      * destruct (proj2 (Hsame x) (or_intror Hx)) as [E|Hin]; [|exact Hin].
        subst x. contradiction.
Qed.

Lemma sorted_set_same (l1 l2 : list str) :
  (forall x, In x l1 <-> In x l2) -> Text.sorted_set l1 = Text.sorted_set l2.
Proof.
  intros H. apply sorted_nodup_unique.
  - apply sorted_is_sorted.
  - apply sorted_is_sorted.
  - apply sorted_set_NoDup.
  - apply sorted_set_NoDup.
  - intros x. rewrite !sorted_set_In. apply H.
Qed.

Lemma in_line_tokens_iff (line x : str) :
  In x (line_tokens line) <-> scan_line [] line = Done [x].
Proof.
  split; intros H.
  - destruct (line_tokens_valid line x H) as [_ E].
    rewrite (scan_line_from [] line), E. reflexivity.
  - unfold line_tokens. rewrite H. now left.
Qed.

(** X1. The line-oriented parser returns a list for every text: it never
    raises (a stripped line always has a first word) and never exits.  The
    list is in increasing order and holds no name twice. *)
Theorem X1_pip_parser_returns_sorted_set :
  forall stdout : str,
    exists names,
      parse_pip_check_output stdout = Done names
      /\ NoDup names /\ Sorted in_order names.
Proof.
  intros stdout. rewrite parse_pip_check_output_eq. eexists.
  split; [reflexivity|]. split.
  - apply sorted_set_NoDup.
  - apply sorted_is_sorted.
Qed.

(** X2. Every name the line-oriented parser returns is not empty and is made
    of ASCII letters, digits, hyphen, underscore and dot only. *)
Theorem X2_pip_parser_names_are_valid :
  forall stdout : str,
    exists names,
      parse_pip_check_output stdout = Done names
      /\ forallb valid_name names = true.
Proof.
  intros stdout. rewrite parse_pip_check_output_eq. eexists.
  split; [reflexivity|]. apply forallb_forall. intros x Hx.
  apply (proj1 (sorted_set_In _ _)) in Hx.
  apply (proj1 (in_flat_map _ _ _)) in Hx as (line & _ & Hx).
  exact (proj1 (line_tokens_valid line x Hx)).
Qed.

(** X3. A name is in the result exactly when some line of the text yields
    it on its own; so the result depends only on which lines occur, not on
    their order or on how often they occur. *)
Theorem X3_pip_parser_result_by_lines :
  forall stdout : str,
    (exists names,
        parse_pip_check_output stdout = Done names
        /\ forall x,
             In x names
             <-> exists line,
                   In line (Text.splitlines stdout)
                   /\ scan_line [] line = Done [x])
    /\ forall stdout',
         (forall line,
             In line (Text.splitlines stdout)
             <-> In line (Text.splitlines stdout')) ->
         parse_pip_check_output stdout = parse_pip_check_output stdout'.
Proof.
  intros stdout. split.
  - rewrite parse_pip_check_output_eq. eexists. split; [reflexivity|].
    intros x. rewrite sorted_set_In, in_flat_map.
    split; intros (line & Hin & Hx); exists line; split; auto;
      now apply in_line_tokens_iff.
  - intros stdout' Hsame. rewrite !parse_pip_check_output_eq. f_equal.
    apply sorted_set_same. intros x. rewrite !in_flat_map.
    split; intros (line & Hin & Hx); exists line; split; auto; now apply Hsame.
Qed.

Lemma strip_by_keep (p : char -> bool) (a z : char) (s : str) :
  p a = false -> p z = false ->
  Text.strip_by p (a :: s ++ [z]) = a :: s ++ [z].
Proof.
  intros Ha Hz. unfold Text.strip_by, Text.rstrip_by, Text.lstrip_by.
  cbn [Text.dropwhile]. rewrite Ha.
  assert (E : rev (a :: s ++ [z]) = z :: rev s ++ [a]).
  { simpl. now rewrite rev_app_distr. }
  rewrite E. cbn [Text.dropwhile]. rewrite Hz. rewrite <- E.
  apply rev_involutive.
Qed.

Lemma in_lines_in_names (stdout line x : str) :
  In line (Text.splitlines stdout) ->
  scan_line [] line = Done [x] ->
  exists names, parse_pip_check_output stdout = Done names /\ In x names.
Proof.
  intros Hin Hx. rewrite parse_pip_check_output_eq. eexists.
  split; [reflexivity|]. apply sorted_set_In. apply in_flat_map.
  exists line. split; [exact Hin|]. now apply in_line_tokens_iff.
Qed.

Lemma scan_line_bullet (modules : list str) (bullet token : str) :
  In bullet bullet_prefixes ->
  token <> [] ->
  forallb (fun c => Text.mem c allowed_chars) token = true ->
  scan_line modules (bullet ++ token) = Done (modules ++ [token]).
Proof.
  intros Hb Hne Hvalid.
  destruct (exists_last Hne) as (front & z & Etoken).
  assert (Hz : Text.is_space z = false).
  { apply negb_true_iff.
    apply (allowed_char_has (fun c => negb (Text.is_space c)) z eq_refl).
    apply (proj1 (forallb_forall _ _) Hvalid). rewrite Etoken.
    apply in_or_app. right. now left. }
  assert (Hascii : forallb Text.is_ascii token = true)
    by (apply valid_token_has; [reflexivity|exact Hvalid]).
  assert (Hsplit : Text.split token = [token]).
  { unfold Text.split. rewrite split_from_one_token.
    - simpl. destruct token; [contradiction|reflexivity].
    - apply valid_token_has; [reflexivity|exact Hvalid]. }
  assert (Hcomma : Text.strip_chars (py ",") token = token).
  { apply strip_by_none, valid_token_has; [reflexivity|exact Hvalid]. }
  assert (Hempty : is_empty token = false) by now apply is_empty_false_iff.
  destruct Hb as [<-|[<-|[]]].
  - change (py "- " ++ token) with (45%N :: 32%N :: token).
    unfold scan_line, Text.strip.
    assert (Hstrip : Text.strip_by Text.is_space (45%N :: 32%N :: token)
                     = 45%N :: 32%N :: token).
    { rewrite Etoken.
      exact (strip_by_keep Text.is_space 45%N z (32%N :: front) eq_refl Hz). }
    rewrite Hstrip. cbv zeta.
    assert (Hlower : lower (45%N :: 32%N :: token)
                     = 45%N :: 32%N :: map Text.ascii_lower token).
    { unfold lower, Text.lower. simpl forallb. now rewrite Hascii. }
    rewrite Hlower.
    change (Text.startswith_any (45%N :: 32%N :: map Text.ascii_lower token)
              header_prefixes) with false.
    change (Text.startswith_any (45%N :: 32%N :: map Text.ascii_lower token)
              noise_prefixes) with false.
    change (Text.startswith_any (45%N :: 32%N :: token) marker_prefixes)
      with false.
    change (isdigit 45%N) with false.
    assert (Hbullet :
      Text.startswith_any (45%N :: 32%N :: token) bullet_prefixes = true)
      by (destruct token; reflexivity).
    rewrite Hbullet. cbv iota. simpl skipn. simpl andb. cbv iota.
    now rewrite Hsplit, Hcomma, Hempty, Hvalid.
  - change (py "* " ++ token) with (42%N :: 32%N :: token).
    unfold scan_line, Text.strip.
    assert (Hstrip : Text.strip_by Text.is_space (42%N :: 32%N :: token)
                     = 42%N :: 32%N :: token).
    { rewrite Etoken.
      exact (strip_by_keep Text.is_space 42%N z (32%N :: front) eq_refl Hz). }
    rewrite Hstrip. cbv zeta.
    assert (Hlower : lower (42%N :: 32%N :: token)
                     = 42%N :: 32%N :: map Text.ascii_lower token).
    { unfold lower, Text.lower. simpl forallb. now rewrite Hascii. }
    rewrite Hlower.
    change (Text.startswith_any (42%N :: 32%N :: map Text.ascii_lower token)
              header_prefixes) with false.
    change (Text.startswith_any (42%N :: 32%N :: map Text.ascii_lower token)
              noise_prefixes) with false.
    change (Text.startswith_any (42%N :: 32%N :: token) marker_prefixes)
      with false.
    change (isdigit 42%N) with false.
    assert (Hbullet :
      Text.startswith_any (42%N :: 32%N :: token) bullet_prefixes = true)
      by (destruct token; reflexivity).
    rewrite Hbullet. cbv iota. simpl skipn. simpl andb. cbv iota.
    now rewrite Hsplit, Hcomma, Hempty, Hvalid.
Qed.

(** X4. A line made of a bullet ([- ] or [* ]) and one token of allowed
    characters always yields that token, whatever the token begins with: the
    header and noise prefixes are looked for before the bullet is removed.  A
    text that has such a line among its lines parses to a list holding the
    token. *)
Theorem X4_bulleted_token_is_kept :
  forall (bullet token : str),
    In bullet bullet_prefixes ->
    token <> [] ->
    forallb (fun c => Text.mem c allowed_chars) token = true ->
    (forall modules,
        scan_line modules (bullet ++ token) = Done (modules ++ [token]))
    /\ forall stdout,
         In (bullet ++ token) (Text.splitlines stdout) ->
         exists names,
           parse_pip_check_output stdout = Done names /\ In token names.
Proof.
  intros bullet token Hb Hne Hvalid. split.
  - intros modules. now apply scan_line_bullet.
  - intros stdout Hin. eapply in_lines_in_names; [exact Hin|].
    now apply scan_line_bullet.
Qed.

(** X5. A line that is blank, that begins (after stripping) with [#], [=] or
    [---], or that begins with a digit and contains a colon, adds nothing to
    the list. *)
Theorem X5_skipped_lines :
  forall (modules : list str) (line : str),
    match Text.strip line with
    | [] => True
    | first :: rest =>
        Text.startswith_any (first :: rest) marker_prefixes = true
        \/ (isdigit first = true /\ Text.mem 58%N (first :: rest) = true)
    end ->
    scan_line modules line = Done modules.
Proof.
  intros modules line H. unfold scan_line. cbv zeta.
  destruct (Text.strip line) as [|first rest]; [reflexivity|].
  destruct (Text.startswith_any _ header_prefixes); [reflexivity|].
  destruct (Text.startswith_any _ noise_prefixes); [reflexivity|].
  destruct H as [H|[Hd Hc]].
  - now rewrite H.
  - rewrite Hd, Hc.
    now destruct (Text.startswith_any (first :: rest) marker_prefixes).
Qed.

(** ** More on the runners *)

Lemma exits_ret {A} (P : Z -> Prop) (a : A) : exits_within P (ret a).
Proof. intros c H. discriminate H. Qed.

Lemma exits_emit (P : Z -> Prop) (e : event) : exits_within P (emit e).
Proof. intros c H. discriminate H. Qed.

Lemma exits_raise {A} (P : Z -> Prop) (e : exn) : exits_within P (@raise A e).
Proof. intros c H. discriminate H. Qed.

Lemma exits_console_print (P : Z -> Prop) (r : renderable) :
  exits_within P (console_print r).
Proof.
  intros c H. destruct (console_print_cases r) as [E|[e E]];
    rewrite E in H; discriminate H.
Qed.

Lemma exits_sys_exit {A} (P : Z -> Prop) (code : Z) :
  P code -> exits_within P (@sys_exit A code).
Proof. intros HP c H. injection H as <-. exact HP. Qed.

Lemma exits_lift {A} (P : Z -> Prop) (o : outcome A) :
  (forall c, o <> Exited c) -> exits_within P (lift o).
Proof. intros Ho c H. destruct (Ho c H). Qed.

Lemma exits_bind {A B} (P : Z -> Prop) (m : M A) (k : A -> M B) :
  exits_within P m -> (forall a, exits_within P (k a)) ->
  exits_within P (bind m k).
Proof.
  intros Hm Hk c. destruct m as [t [a|c'|e]]; simpl.
  - specialize (Hk a c). destruct (k a) as [t' r]. exact Hk.
  - intros H. injection H as <-. now apply (Hm c').
  - discriminate.
Qed.

Lemma exits_weaken {A} (P Q : Z -> Prop) (m : M A) :
  (forall c, P c -> Q c) -> exits_within P m -> exits_within Q m.
Proof. intros HPQ Hm c H. apply HPQ, Hm, H. Qed.

Lemma for_each_no_exit {A S} (step : S -> A -> outcome S) (xs : list A) :
  (forall acc x c, step acc x <> Exited c) ->
  forall acc c, for_each step acc xs <> Exited c.
Proof.
  intros Hstep. induction xs as [|x xs IH]; intros acc c; simpl; [discriminate|].
  destruct (step acc x) as [acc'|c'|e] eqn:E.
  - apply IH.
  - destruct (Hstep acc x c' E).
  - discriminate.
Qed.

Lemma names_of_no_exit (data : json) (key : str) (c : Z) :
  names_of data key <> Exited c.
Proof.
  unfold names_of.
  destruct (get_or_empty data key) as [v|c'|e] eqn:Ev;
    [|destruct data; discriminate|discriminate].
  destruct (iterate v) as [items|c'|e] eqn:Ei;
    [|destruct v; discriminate|discriminate].
  unfold collect_names. apply for_each_no_exit.
  intros acc x c1. now destruct x.
Qed.

Lemma parse_pip_check_output_no_exit (stdout : str) (c : Z) :
  parse_pip_check_output stdout <> Exited c.
Proof. rewrite parse_pip_check_output_eq. discriminate. Qed.

Lemma report_lines_no_exit {R} (missing unused : list json)
    (missing_line unused_line : str -> R) (ok_line : R) (c : Z) :
  report_lines missing unused missing_line unused_line ok_line <> Exited c.
Proof.
  unfold report_lines, joined_sorted.
  destruct (is_empty missing), (is_empty unused);
    destruct (as_strs missing), (as_strs unused); discriminate.
Qed.

Lemma exits_print_diagnostics (P : Z -> Prop) (b : str) (d : list (str * str)) :
  exits_within P (print_diagnostics b d).
Proof.
  intros c H.
  destruct (print_diagnostics_cases b d) as [E|[e E]]; rewrite E in H;
    discriminate H.
Qed.

Lemma exits_parse_deptry_report (stdout : str) :
  exits_within (fun c => c = 2%Z) (parse_deptry_report stdout).
Proof.
  unfold parse_deptry_report.
  destruct (is_empty (Text.strip stdout)); [apply exits_ret|].
  destruct (json_loads stdout) as [exc|data].
  - repeat (apply exits_bind; [apply exits_console_print|intros _]).
    now apply exits_sys_exit.
  - unfold deptry_findings.
    apply exits_bind; [apply exits_lift, names_of_no_exit|intros m].
    apply exits_bind; [apply exits_lift, names_of_no_exit|intros u].
    apply exits_ret.
Qed.

Lemma not_in_0_1_nonzero (code : Z) :
  not_in_0_1 code = true -> or_code code 2 = code /\ code <> 0%Z /\ code <> 1%Z.
Proof.
  unfold not_in_0_1, or_code. intros H. apply negb_true_iff in H.
  apply orb_false_iff in H as [H0 H1].
  rewrite H0. apply Z.eqb_neq in H0, H1. auto.
Qed.

Lemma show_if_text_cases (text title border_style : str) :
  show_if_text text title border_style
  = (panel_if_text text title border_style, Done tt)
  \/ exists e, show_if_text text title border_style = ([], Raised e).
Proof.
  unfold show_if_text, panel_if_text. destruct (is_empty text); [now left|].
  destruct (console_print_cases (PanelFit text title border_style)) as [E|[e E]].
  - left. exact E.
  - right. now exists e.
Qed.

Lemma show_if_text_ok (text title border_style : str) :
  console_error (PanelFit text title border_style) = None ->
  show_if_text text title border_style
  = (panel_if_text text title border_style, Done tt).
Proof.
  intros H. unfold show_if_text, panel_if_text.
  destruct (is_empty text); [reflexivity|]. exact (console_print_ok _ H).
Qed.

Lemma run_deptry_eq (path : Path) :
  run_deptry path
  = (if not_in_0_1 (returncode (deptry_result path)) then
       ([Printed MSG_deptry_banner; Ran (deptry_command path) path;
         Printed MSG_deptry_failed]
        ++ fst (show_if_text (stderr (deptry_result path)) (py "deptry stderr")
                  (py "red")),
        match snd (show_if_text (stderr (deptry_result path))
                     (py "deptry stderr") (py "red")) with
        | Done _ => Exited (returncode (deptry_result path))
        | Exited c => Exited c
        | Raised e => Raised e
        end)
     else
       ([Printed MSG_deptry_banner; Ran (deptry_command path) path]
        ++ fst (parse_deptry_report (stdout (deptry_result path))),
        snd (parse_deptry_report (stdout (deptry_result path))))).
Proof.
  unfold run_deptry. rewrite (bind_print _ _ renders_deptry_banner).
  rewrite bind_run_command.
  fold (deptry_command path). fold (deptry_result path).
  destruct (not_in_0_1 (returncode (deptry_result path))) eqn:Hrc.
  - destruct (not_in_0_1_nonzero _ Hrc) as [-> _].
    rewrite (bind_print _ _ renders_deptry_failed).
    fold (show_if_text (stderr (deptry_result path)) (py "deptry stderr") (py "red")).
    destruct (show_if_text_cases (stderr (deptry_result path)) (py "deptry stderr")
                (py "red")) as [E|[e E]]; rewrite E; cbn [fst snd bind sys_exit];
      rewrite ?app_nil_r; reflexivity.
  - reflexivity.
Qed.

Lemma exits_run_deptry (path : Path) :
  exits_within (fun c => c <> 0%Z /\ c <> 1%Z) (run_deptry path).
Proof.
  rewrite run_deptry_eq.
  destruct (not_in_0_1 (returncode (deptry_result path))) eqn:Hrc.
  - intros c H. cbn [snd] in H.
    destruct (show_if_text_cases (stderr (deptry_result path)) (py "deptry stderr")
                (py "red")) as [E|[e E]]; rewrite E in H; cbn [snd] in H;
      [|discriminate H].
    injection H as <-. exact (proj2 (not_in_0_1_nonzero _ Hrc)).
  - intros c H. cbn [snd] in H.
    rewrite (exits_parse_deptry_report _ H). split; discriminate.
Qed.

(** X6. The structured runner prints its banner and invokes the analyzer
    once.  When the analyzer ends with a status other than 0 and 1, the runner
    prints the failure line and, when there is any standard error, a panel
    with it, and then exits with the analyzer's own status: the parser is not
    run.  If the panel cannot be printed the runner raises what the console
    raised, and otherwise it exits.  With status 0 or 1, whichever, the runner
    goes on as the parser does on the analyzer's standard output.  In no case
    does the runner exit with 0 or with 1. *)
Theorem X6_run_deptry_by_status :
  forall path : Path,
    let result := deptry_result path in
    let panel := PanelFit (stderr result) (py "deptry stderr") (py "red") in
    run_deptry path
    = (if not_in_0_1 (returncode result) then
         if is_empty (stderr result) then
           ([Printed MSG_deptry_banner; Ran (deptry_command path) path;
             Printed MSG_deptry_failed],
            Exited (returncode result))
         else
           match console_error panel with
           | None =>
               ([Printed MSG_deptry_banner; Ran (deptry_command path) path;
                 Printed MSG_deptry_failed; Printed panel],
                Exited (returncode result))
           | Some e =>
               ([Printed MSG_deptry_banner; Ran (deptry_command path) path;
                 Printed MSG_deptry_failed],
                Raised e)
           end
       else
         ([Printed MSG_deptry_banner; Ran (deptry_command path) path]
          ++ fst (parse_deptry_report (stdout result)),
          snd (parse_deptry_report (stdout result))))
    /\ snd (run_deptry path) <> Exited 0
    /\ snd (run_deptry path) <> Exited 1.
Proof.
  intros path result panel. split.
  - rewrite run_deptry_eq. fold result.
    destruct (not_in_0_1 (returncode result)); [|reflexivity].
    unfold show_if_text. destruct (is_empty (stderr result)); [reflexivity|].
    fold panel. unfold console_print.
    destruct (console_error panel); reflexivity.
  - split; intros H; apply exits_run_deptry in H; destruct H as [H0 H1];
      [now apply H0|now apply H1].
Qed.

Lemma run_pip_check_reqs_normal (path : Path) :
  not_in_0_1 (returncode (missing_result path))
  || not_in_0_1 (returncode (extra_result path)) = false ->
  console_error (PanelFit (Text.strip (stdout (missing_result path)))
                   (py "pip-missing-reqs") (py "cyan")) = None ->
  console_error (PanelFit (Text.strip (stdout (extra_result path)))
                   (py "pip-extra-reqs") (py "cyan")) = None ->
  run_pip_check_reqs path
  = ([Printed MSG_pip_banner;
      Ran (check_command (py "pip-missing-reqs") path
             (select_requirements_file path)) path;
      Ran (check_command (py "pip-extra-reqs") path
             (select_requirements_file path)) path]
     ++ panel_if_text (Text.strip (stdout (missing_result path)))
          (py "pip-missing-reqs") (py "cyan")
     ++ panel_if_text (Text.strip (stdout (extra_result path)))
          (py "pip-extra-reqs") (py "cyan"),
     Done (Text.sorted_set
             (flat_map line_tokens (Text.splitlines (stdout (missing_result path)))),
           Text.sorted_set
             (flat_map line_tokens (Text.splitlines (stdout (extra_result path)))),
           add_diagnostic (py "pip-extra-reqs") (stderr (extra_result path))
             (add_diagnostic (py "pip-missing-reqs")
                (stderr (missing_result path)) []))).
Proof.
  intros H Hm He. rewrite run_pip_check_reqs_eq. unfold pip_check_reqs_verdict.
  cbv zeta. rewrite H. cbv iota.
  rewrite (show_if_text_ok _ _ _ Hm), (show_if_text_ok _ _ _ He).
  rewrite !parse_pip_check_output_eq.
  cbn [bind lift ret fst snd app]. rewrite !app_nil_r. reflexivity.
Qed.

(** X7. When both requirements checkers end with 0 or 1 and the panels
    showing their standard outputs are rendered, the runner returns: it has
    run exactly the two commands, shown each non-blank standard output in a
    panel, and its result is the line-oriented parser's list for the missing
    check, its list for the extra check, and the standard error of each tool
    that wrote any.  Which of 0 and 1 a tool ended with plays no part, and the
    standard errors are not printed. *)
Theorem X7_run_pip_check_reqs_returns :
  forall path : Path,
    not_in_0_1 (returncode (missing_result path)) = false ->
    not_in_0_1 (returncode (extra_result path)) = false ->
    console_error (PanelFit (Text.strip (stdout (missing_result path)))
                     (py "pip-missing-reqs") (py "cyan")) = None ->
    console_error (PanelFit (Text.strip (stdout (extra_result path)))
                     (py "pip-extra-reqs") (py "cyan")) = None ->
    exists missing unused,
      parse_pip_check_output (stdout (missing_result path)) = Done missing
      /\ parse_pip_check_output (stdout (extra_result path)) = Done unused
      /\ run_pip_check_reqs path
         = ([Printed MSG_pip_banner;
             Ran (check_command (py "pip-missing-reqs") path
                    (select_requirements_file path)) path;
             Ran (check_command (py "pip-extra-reqs") path
                    (select_requirements_file path)) path]
            ++ panel_if_text (Text.strip (stdout (missing_result path)))
                 (py "pip-missing-reqs") (py "cyan")
            ++ panel_if_text (Text.strip (stdout (extra_result path)))
                 (py "pip-extra-reqs") (py "cyan"),
            Done (missing, unused,
                  add_diagnostic (py "pip-extra-reqs") (stderr (extra_result path))
                    (add_diagnostic (py "pip-missing-reqs")
                       (stderr (missing_result path)) []))).
Proof.
  intros path Hm He Pm Pe. rewrite !parse_pip_check_output_eq.
  eexists. eexists. split; [reflexivity|]. split; [reflexivity|].
  apply run_pip_check_reqs_normal; [now rewrite Hm, He|exact Pm|exact Pe].
Qed.

Lemma exits_show_if_text (P : Z -> Prop) (text title border_style : str) :
  exits_within P (show_if_text text title border_style).
Proof.
  unfold show_if_text. destruct (is_empty text);
    [apply exits_ret|apply exits_console_print].
Qed.

Lemma exits_run_pip_check_reqs (path : Path) :
  exits_within (fun c => c <> 0%Z) (run_pip_check_reqs path).
Proof.
  intros c H.
  destruct (not_in_0_1 (returncode (missing_result path))
            || not_in_0_1 (returncode (extra_result path))) eqn:Hg.
  - rewrite (run_pip_check_reqs_unexpected_status path Hg) in H. cbn [snd] in H.
    destruct (print_diagnostics_cases (py "red")
                (add_diagnostic (py "pip-extra-reqs") (stderr (extra_result path))
                   (add_diagnostic (py "pip-missing-reqs")
                      (stderr (missing_result path)) []))) as [E|[e E]];
      rewrite E in H; [|discriminate H].
    injection H as <-. unfold or_code.
    destruct (Z.eqb_spec (returncode (missing_result path)) 0) as [E0|E0];
      [|exact E0].
    destruct (Z.eqb_spec (returncode (extra_result path)) 0) as [E'|E'];
      [|exact E'].
    rewrite E0, E' in Hg. discriminate Hg.
  - rewrite run_pip_check_reqs_eq in H. cbn [snd] in H. revert c H.
    change (exits_within (fun c => c <> 0%Z)
              (pip_check_reqs_verdict (missing_result path) (extra_result path))).
    unfold pip_check_reqs_verdict. cbv zeta. rewrite Hg.
    apply exits_bind; [apply exits_show_if_text|intros _].
    apply exits_bind; [apply exits_show_if_text|intros _].
    apply exits_bind;
      [apply exits_lift; intros c; apply parse_pip_check_output_no_exit|intros m].
    apply exits_bind;
      [apply exits_lift; intros c; apply parse_pip_check_output_no_exit|intros u].
    apply exits_ret.
Qed.

(** X8. When one of the two requirements checkers ends with a status other
    than 0 and 1, the runner never returns and the parsers are not run.  When
    the panels with the standard errors are rendered it exits, and never with
    0: the status is that of the missing check unless that is 0, and then that
    of the extra check. *)
Theorem X8_run_pip_check_reqs_exit_status :
  forall path : Path,
    not_in_0_1 (returncode (missing_result path))
    || not_in_0_1 (returncode (extra_result path)) = true ->
    (forall findings, snd (run_pip_check_reqs path) <> Done findings)
    /\ (snd (print_diagnostics (py "red")
               (add_diagnostic (py "pip-extra-reqs") (stderr (extra_result path))
                  (add_diagnostic (py "pip-missing-reqs")
                     (stderr (missing_result path)) []))) = Done tt ->
        exists code,
          snd (run_pip_check_reqs path) = Exited code
          /\ code <> 0%Z
          /\ code = (if Z.eqb (returncode (missing_result path)) 0
                     then returncode (extra_result path)
                     else returncode (missing_result path))).
Proof.
  intros path Hg. rewrite (run_pip_check_reqs_unexpected_status path Hg).
  cbn [snd]. split.
  - intros findings.
    destruct (snd (print_diagnostics _ _)) as [[]|c|e]; discriminate.
  - intros Hd. rewrite Hd. eexists. split; [reflexivity|].
    rewrite (unexpected_status_exit_code _ _ Hg). split; [|reflexivity].
    unfold not_in_0_1 in Hg.
    destruct (Z.eqb_spec (returncode (missing_result path)) 0) as [E0|E0];
      [|exact E0].
    destruct (Z.eqb_spec (returncode (extra_result path)) 0) as [E'|E'];
      [|exact E'].
    rewrite E0, E' in Hg. discriminate Hg.
Qed.

(** ** More on the whole run *)

Lemma main_bad_path :
  let raw_path := getenv_default (py "INPUT_PATH") (py ".") in
  let mode := lower (Text.strip (getenv_default (py "INPUT_MODE") (py "deptry"))) in
  path_exists (resolve raw_path) && path_is_dir (resolve raw_path) = false ->
  main = match console_error (MSG_checking raw_path mode fail_on_warn) with
         | Some e => ([Printed MSG_started], Raised e)
         | None =>
             gives_up [Printed MSG_started;
                       Printed (MSG_checking raw_path mode fail_on_warn)]
               (MSG_bad_path (resolve raw_path))
         end.
Proof.
  intros raw_path mode H. rewrite main_eq. fold raw_path. fold mode.
  rewrite (bind_print _ _ renders_started).
  destruct (console_error (MSG_checking raw_path mode fail_on_warn)) as [e|] eqn:Ec.
  - now rewrite (bind_print_raises _ _ Ec).
  - rewrite (bind_print _ _ Ec).
    assert (Hr : resolve_project_path raw_path
                 = (console_print (MSG_bad_path (resolve raw_path)) ;; sys_exit 2)).
    { unfold resolve_project_path, MSG_bad_path.
      destruct (path_exists (resolve raw_path)); [|reflexivity].
      simpl in H. now rewrite H. }
    rewrite Hr. unfold gives_up.
    destruct (console_error (MSG_bad_path (resolve raw_path))) as [e|] eqn:Eb.
    + now rewrite (bind_print_raises _ _ Eb).
    + now rewrite (bind_print _ _ Eb).
Qed.

Lemma main_unsupported_mode :
  let raw_path := getenv_default (py "INPUT_PATH") (py ".") in
  let mode := lower (Text.strip (getenv_default (py "INPUT_MODE") (py "deptry"))) in
  path_exists (resolve raw_path) && path_is_dir (resolve raw_path) = true ->
  Text.eqb mode (py "deptry") = false ->
  Text.eqb mode (py "pip-check-reqs") = false ->
  main = match console_error (MSG_checking raw_path mode fail_on_warn) with
         | Some e => ([Printed MSG_started], Raised e)
         | None =>
             gives_up [Printed MSG_started;
                       Printed (MSG_checking raw_path mode fail_on_warn)]
               (MSG_unsupported_mode mode)
         end.
Proof.
  intros raw_path mode H Hd Hp. apply andb_true_iff in H as [He Hdir].
  rewrite main_eq. fold raw_path. fold mode.
  rewrite (bind_print _ _ renders_started).
  destruct (console_error (MSG_checking raw_path mode fail_on_warn)) as [e|] eqn:Ec.
  - now rewrite (bind_print_raises _ _ Ec).
  - rewrite (bind_print _ _ Ec).
    rewrite (resolve_project_path_ok He Hdir), bind_ret.
    unfold analyse. rewrite Hd, Hp. fold (MSG_unsupported_mode mode).
    unfold gives_up.
    destruct (console_error (MSG_unsupported_mode mode)) as [e|] eqn:Eb.
    + now rewrite (bind_print_raises _ _ Eb).
    + now rewrite (bind_print _ _ Eb).
Qed.

(** X9. When the target path does not exist or is not a directory, the run
    does nothing but print, whatever the mode is: no tool is invoked and
    nothing is written to the summary.  It prints its two opening lines and
    the line naming the path and exits with status 2; when the console cannot
    render the second opening line or the line naming the path, which hold the
    path as it was given and as it was resolved, the run stops there with
    what the console raised. *)
Theorem X9_bad_path_stops_the_run :
  let raw_path := getenv_default (py "INPUT_PATH") (py ".") in
  let mode := lower (Text.strip (getenv_default (py "INPUT_MODE") (py "deptry"))) in
  path_exists (resolve raw_path) && path_is_dir (resolve raw_path) = false ->
  main = match console_error (MSG_checking raw_path mode fail_on_warn) with
         | Some e => ([Printed MSG_started], Raised e)
         | None =>
             match console_error (MSG_bad_path (resolve raw_path)) with
             | Some e =>
                 ([Printed MSG_started;
                   Printed (MSG_checking raw_path mode fail_on_warn)],
                  Raised e)
             | None =>
                 ([Printed MSG_started;
                   Printed (MSG_checking raw_path mode fail_on_warn);
                   Printed (MSG_bad_path (resolve raw_path))],
                  Exited 2)
             end
         end.
Proof.
  intros raw_path mode H. rewrite (main_bad_path H). fold raw_path. fold mode.
  unfold gives_up.
  destruct (console_error (MSG_checking raw_path mode fail_on_warn));
    [reflexivity|].
  destruct (console_error (MSG_bad_path (resolve raw_path))); reflexivity.
Qed.

(** X10. When the mode, stripped and lowercased, is neither [deptry] nor
    [pip-check-reqs], the run does nothing but print: no tool is invoked and
    nothing is written to the summary.  The path is checked first, so the line
    printed last names the path when that is bad and the mode otherwise, and
    then the run exits with status 2; when the console cannot render the
    second opening line or that last line the run stops there with what the
    console raised. *)
Theorem X10_unsupported_mode_stops_the_run :
  let raw_path := getenv_default (py "INPUT_PATH") (py ".") in
  let mode := lower (Text.strip (getenv_default (py "INPUT_MODE") (py "deptry"))) in
  Text.eqb mode (py "deptry") = false ->
  Text.eqb mode (py "pip-check-reqs") = false ->
  let last := if path_exists (resolve raw_path) && path_is_dir (resolve raw_path)
              then MSG_unsupported_mode mode
              else MSG_bad_path (resolve raw_path) in
  main = match console_error (MSG_checking raw_path mode fail_on_warn) with
         | Some e => ([Printed MSG_started], Raised e)
         | None =>
             match console_error last with
             | Some e =>
                 ([Printed MSG_started;
                   Printed (MSG_checking raw_path mode fail_on_warn)],
                  Raised e)
             | None =>
                 ([Printed MSG_started;
                   Printed (MSG_checking raw_path mode fail_on_warn);
                   Printed last],
                  Exited 2)
             end
         end.
Proof.
  intros raw_path mode Hd Hp last. subst last.
  destruct (path_exists (resolve raw_path) && path_is_dir (resolve raw_path))
    eqn:H.
  - rewrite (main_unsupported_mode H Hd Hp). fold raw_path. fold mode.
    unfold gives_up.
    destruct (console_error (MSG_checking raw_path mode fail_on_warn));
      [reflexivity|].
    destruct (console_error (MSG_unsupported_mode mode)); reflexivity.
  - rewrite (main_bad_path H). fold raw_path. fold mode. unfold gives_up.
    destruct (console_error (MSG_checking raw_path mode fail_on_warn));
      [reflexivity|].
    destruct (console_error (MSG_bad_path (resolve raw_path))); reflexivity.
Qed.

Lemma exits_exit_policy {A} (missing unused : list A) (flag : bool) :
  exits_within (fun c => c = 1%Z) (exit_policy missing unused flag).
Proof.
  unfold exit_policy. cbv zeta.
  destruct (negb (is_empty missing) || negb (is_empty unused) && flag).
  - apply exits_bind; [apply exits_console_print|intros _].
    now apply exits_sys_exit.
  - apply exits_bind; [|intros _; apply exits_console_print].
    destruct (negb (is_empty unused) && negb flag);
      [apply exits_console_print|apply exits_ret].
Qed.

Lemma exits_render_table (P : Z -> Prop) (missing unused : list json) :
  exits_within P (render_table missing unused).
Proof.
  unfold render_table.
  apply exits_bind; [apply exits_lift, report_lines_no_exit|intros rows].
  apply exits_console_print.
Qed.

Lemma exits_write_summary (P : Z -> Prop) (missing unused : list json) (mode : str) :
  exits_within P (write_summary missing unused mode).
Proof.
  unfold write_summary.
  destruct (getenv (py "GITHUB_STEP_SUMMARY")) as [[|c p]|]; try apply exits_ret.
  apply exits_bind; [apply exits_lift, report_lines_no_exit|intros rows].
  cbv zeta. destruct (Markup.has_surrogate _); [apply exits_raise|apply exits_emit].
Qed.

Lemma exits_resolve_project_path (raw_path : str) :
  exits_within (fun c => c = 2%Z) (resolve_project_path raw_path).
Proof.
  unfold resolve_project_path. cbv zeta.
  destruct (negb (path_exists (resolve raw_path))).
  - apply exits_bind; [apply exits_console_print|intros _].
    now apply exits_sys_exit.
  - destruct (negb (path_is_dir (resolve raw_path))).
    + apply exits_bind; [apply exits_console_print|intros _].
      now apply exits_sys_exit.
    + apply exits_ret.
Qed.

Lemma exits_analyse (mode : str) (path : Path) :
  exits_within (fun c => c <> 0%Z) (analyse mode path).
Proof.
  unfold analyse. destruct (Text.eqb mode (py "deptry")).
  - apply exits_bind; [|intros r; apply exits_ret].
    apply (exits_weaken (P := fun c => c <> 0%Z /\ c <> 1%Z));
      [tauto|apply exits_run_deptry].
  - destruct (Text.eqb mode (py "pip-check-reqs")).
    + apply exits_bind; [apply exits_run_pip_check_reqs|].
      intros [[m u] d]. apply exits_ret.
    + apply exits_bind; [apply exits_console_print|intros _].
      now apply exits_sys_exit.
Qed.

(** X11. No run exits with status 0 through [sys.exit]: every exit the
    program makes carries a status other than 0, so the process ends with 0
    only when [main] returns. *)
Theorem X11_main_never_exits_with_0 :
  snd main <> Exited 0
  /\ (exit_status (snd main) = 0%Z <-> snd main = Done tt).
Proof.
  assert (H : exits_within (fun c => c <> 0%Z) main).
  { rewrite main_eq.
    apply exits_bind; [apply exits_console_print|intros _].
    apply exits_bind; [apply exits_console_print|intros _].
    apply exits_bind.
    { apply (exits_weaken (P := fun c => c = 2%Z)); [intros c ->; discriminate|].
      apply exits_resolve_project_path. }
    intros project_path.
    apply exits_bind; [apply exits_analyse|intros [[missing unused] diagnostics]].
    apply exits_bind; [apply exits_render_table|intros _].
    apply exits_bind; [apply exits_write_summary|intros _].
    apply exits_bind; [apply exits_print_diagnostics|intros _].
    apply (exits_weaken (P := fun c => c = 1%Z)); [intros c ->; discriminate|].
    apply exits_exit_policy. }
  split.
  - intros E. now apply (H 0%Z E).
  - destruct (snd main) as [[]|c|e] eqn:E; simpl; split; intros H0;
      try reflexivity; try discriminate.
    subst c. now destruct (H 0%Z E).
Qed.

Lemma bind_done_inv {A B} (m : M A) (k : A -> M B) (b : B) :
  snd (bind m k) = Done b -> exists a, snd m = Done a /\ snd (k a) = Done b.
Proof.
  destruct m as [t [a|c|e]]; simpl; try discriminate.
  intros H. exists a. split; [reflexivity|]. now destruct (k a).
Qed.

(** X12. A run that returns (so that the process ends with status 0) has
    validated the path, was in one of the two modes, its analysis returned, it
    found nothing missing, and it found nothing unused or the flag was
    unset. *)
Theorem X12_success_means_nothing_missing :
  let raw_path := getenv_default (py "INPUT_PATH") (py ".") in
  let mode := lower (Text.strip (getenv_default (py "INPUT_MODE") (py "deptry"))) in
  snd main = Done tt ->
  path_exists (resolve raw_path) = true
  /\ path_is_dir (resolve raw_path) = true
  /\ Text.eqb mode (py "deptry") || Text.eqb mode (py "pip-check-reqs") = true
  /\ exists t unused diagnostics,
       analyse mode (resolve raw_path) = (t, Done ([], unused, diagnostics))
       /\ (unused = [] \/ fail_on_warn = false).
Proof.
  intros raw_path mode H. rewrite main_eq in H.
  fold raw_path in H. fold mode in H.
  apply bind_done_inv in H as (_ & _ & H).
  apply bind_done_inv in H as (_ & _ & H).
  apply bind_done_inv in H as (p & Hp & H).
  assert (Hpath : path_exists (resolve raw_path) = true
                  /\ path_is_dir (resolve raw_path) = true
                  /\ p = resolve raw_path).
  { revert Hp. unfold resolve_project_path. cbv zeta.
    destruct (path_exists (resolve raw_path)); cbn [negb];
      [|intros E; apply bind_done_inv in E as (_ & _ & E); discriminate E].
    destruct (path_is_dir (resolve raw_path)); cbn [negb];
      [|intros E; apply bind_done_inv in E as (_ & _ & E); discriminate E].
    intros E. injection E as <-. auto. }
  destruct Hpath as (He & Hd & ->).
  apply bind_done_inv in H as ([[missing unused] diagnostics] & Ha & H).
  apply bind_done_inv in H as (_ & _ & H).
  apply bind_done_inv in H as (_ & _ & H).
  apply bind_done_inv in H as (_ & _ & H).
  split; [exact He|]. split; [exact Hd|]. split.
  - revert Ha. unfold analyse.
    destruct (Text.eqb mode (py "deptry")); [reflexivity|].
    destruct (Text.eqb mode (py "pip-check-reqs")); [reflexivity|].
    intros E. apply bind_done_inv in E as (_ & _ & E). discriminate E.
  - rewrite exit_policy_eq in H.
    destruct missing as [|m missing]; [|discriminate H].
    exists (fst (analyse mode (resolve raw_path))), unused, diagnostics. split.
    + rewrite <- Ha. now destruct (analyse mode (resolve raw_path)).
    + destruct unused as [|u unused]; [now left|]. right.
      destruct fail_on_warn; [discriminate H|reflexivity].
Qed.

(** ** More on the structured parser *)

Lemma collect_names_first_failure (items : list json) (acc : list json) :
  forallb is_object items = false ->
  collect_names acc items = Raised AttributeError.
Proof.
  revert acc; induction items as [|item items IH]; intros acc H;
    [discriminate|].
  rewrite collect_names_cons. simpl in H.
  destruct item; try reflexivity.
  rewrite entry_name_object. apply IH. exact H.
Qed.

(** X13. What the structured parser does with a document that is not the
    expected one.  A document that is not an object raises [AttributeError].
    An object with neither key gives two empty lists.  A [missing] member that
    is [null], a boolean or a number raises [TypeError].  A [missing] array
    with an entry that is not an object raises [AttributeError], whatever the
    other entries and the [unused] member are. *)
Theorem X13_structured_parser_edges :
  (forall data,
      is_object data = false ->
      deptry_findings data = ([], Raised AttributeError))
  /\ (forall members,
         lookup members (py "missing") = None ->
         lookup members (py "unused") = None ->
         deptry_findings (JObj members) = ([], Done ([], [])))
  /\ (forall members v,
         lookup members (py "missing") = Some v ->
         not_iterable v = true ->
         deptry_findings (JObj members) = ([], Raised TypeError))
  /\ (forall members items,
         lookup members (py "missing") = Some (JArr items) ->
         forallb is_object items = false ->
         deptry_findings (JObj members) = ([], Raised AttributeError)).
Proof.
  split; [|split; [|split]].
  - intros data H. destruct data; try discriminate H; reflexivity.
  - intros members Hm Hu. unfold deptry_findings, names_of, get_or_empty.
    rewrite Hm, Hu. reflexivity.
  - intros members v Hm Hv. unfold deptry_findings, names_of, get_or_empty.
    rewrite Hm. destruct v; try discriminate Hv; reflexivity.
  - intros members items Hm Hitems.
    unfold deptry_findings, names_of, get_or_empty. rewrite Hm.
    cbn [iterate]. now rewrite (collect_names_first_failure items [] Hitems).
Qed.

(** X14. Every name the structured parser returns is truthy: never [None],
    an empty string, zero, [False] or an empty container. *)
Theorem X14_structured_names_are_truthy :
  forall (data : json) (missing unused : list json),
    snd (deptry_findings data) = Done (missing, unused) ->
    forallb truthy missing = true /\ forallb truthy unused = true.
Proof.
  intros data missing unused H. unfold deptry_findings in H.
  destruct (names_of data (py "missing")) as [m| |] eqn:Em; try discriminate.
  destruct (names_of data (py "unused")) as [u| |] eqn:Eu; try discriminate.
  simpl in H. injection H as <- <-.
  split; eapply names_of_truthy; eassumption.
Qed.

(** X19. When [json.loads] reads the output as an object whose [missing] and
    [unused] members (an absent one counting as an empty array) are arrays of
    objects, the parser returns, prints nothing, and every entry yields
    exactly one name, in the order of the entries: its [module] field when
    that is truthy, else its [name] field when that is truthy, else the string
    form of the entry. *)
Theorem X19_object_entries_are_named :
  forall (stdout : str) (data : json) (missing unused : list (list (str * json))),
    Text.strip stdout <> [] ->
    json_loads stdout = inr data ->
    get_or_empty data (py "missing") = Done (JArr (map JObj missing)) ->
    get_or_empty data (py "unused") = Done (JArr (map JObj unused)) ->
    parse_deptry_report stdout
    = ([], Done (map spec_entry_name missing, map spec_entry_name unused)).
Proof. exact parse_deptry_report_objects. Qed.

(** *** The names written back *)

Lemma objects_are_entries (items : list json) :
  forallb is_object items = true -> exists entries, items = map JObj entries.
Proof.
  induction items as [|item items IH]; intros H; [now exists []|].
  simpl in H. apply andb_true_iff in H as [Hi H].
  destruct (IH H) as [entries ->].
  destruct item; try discriminate Hi. now exists (members :: entries).
Qed.

(** A document made of the two lists of names cannot be read as soon as one
    name is not an object: a name that is a [str] has no [get]. *)
Lemma reparse_plain_raises (missing unused : list json) :
  forallb is_object (missing ++ unused) = false ->
  deptry_findings (reserialize_plain missing unused) = ([], Raised AttributeError).
Proof.
  intros H. rewrite forallb_app in H. unfold deptry_findings.
  change (names_of (reserialize_plain missing unused) (py "missing"))
    with (collect_names [] missing).
  change (names_of (reserialize_plain missing unused) (py "unused"))
    with (collect_names [] unused).
  destruct (forallb is_object missing) eqn:Em.
  - destruct (objects_are_entries _ Em) as [entries ->].
    rewrite collect_names_objects. simpl in H.
    now rewrite (collect_names_first_failure unused [] H).
  - now rewrite (collect_names_first_failure missing [] Em).
Qed.

(** ** More on the report *)

Lemma as_strs_names (names : list str) : as_strs (map JStr names) = Some names.
Proof. induction names as [|n names IH]; simpl; [reflexivity|now rewrite IH]. Qed.

Lemma as_strs_inv (names : list json) (l : list str) :
  as_strs names = Some l -> names = map JStr l.
Proof.
  revert l; induction names as [|n names IH]; intros l; simpl.
  - intros H. now injection H as <-.
  - destruct n; try discriminate.
    destruct (as_strs names) as [l'|]; [|discriminate].
    intros H. injection H as <-. simpl. now rewrite (IH l' eq_refl).
Qed.

Lemma report_lines_eq {R} (missing unused : list json)
    (missing_line unused_line : str -> R) (ok_line : R) :
  report_lines missing unused missing_line unused_line ok_line
  = match as_strs missing, as_strs unused with
    | Some ms, Some us =>
        Done ((if is_empty ms then [] else
                 [missing_line (Text.join (py ", ") (Text.sorted ms))])
              ++ (if is_empty us then [] else
                    [unused_line (Text.join (py ", ") (Text.sorted us))])
              ++ (if is_empty ms && is_empty us then [ok_line] else []))
    | _, _ => Raised TypeError
    end.
Proof.
  unfold report_lines, joined_sorted.
  destruct (as_strs missing) as [ms|] eqn:Em;
    destruct (as_strs unused) as [us|] eqn:Eu.
  - apply as_strs_inv in Em, Eu. subst. now destruct ms, us.
  - apply as_strs_inv in Em. subst.
    destruct unused; [discriminate Eu|]. now destruct ms.
  - destruct missing; [discriminate Em|]. reflexivity.
  - destruct missing; [discriminate Em|]. reflexivity.
Qed.

Lemma render_table_eq (missing unused : list json) :
  render_table missing unused
  = match as_strs missing, as_strs unused with
    | Some ms, Some us => console_print (TableOf TABLE_title (table_rows ms us))
    | _, _ => ([], Raised TypeError)
    end.
Proof.
  unfold render_table. rewrite report_lines_eq.
  destruct (as_strs missing) as [ms|], (as_strs unused) as [us|];
    try reflexivity.
  rewrite bind_lift_done. reflexivity.
Qed.

Lemma write_summary_eq (missing unused : list json) (mode : str) :
  write_summary missing unused mode
  = match getenv (py "GITHUB_STEP_SUMMARY") with
    | Some (c :: p) =>
        match as_strs missing, as_strs unused with
        | Some ms, Some us =>
            if Markup.has_surrogate (summary_text ms us mode)
            then ([], Raised UnicodeEncodeError)
            else ([Appended (c :: p) (summary_text ms us mode)], Done tt)
        | _, _ => ([], Raised TypeError)
        end
    | _ => ([], Done tt)
    end.
Proof.
  unfold write_summary.
  destruct (getenv (py "GITHUB_STEP_SUMMARY")) as [[|c p]|]; try reflexivity.
  rewrite report_lines_eq.
  destruct (as_strs missing) as [ms|], (as_strs unused) as [us|];
    try reflexivity.
  rewrite bind_lift_done. cbv zeta. fold (summary_text ms us mode).
  now destruct (Markup.has_surrogate (summary_text ms us mode)).
Qed.

Lemma sorted_perm_unique (l1 l2 : list str) :
  Sorted in_order l1 -> Sorted in_order l2 -> Permutation l1 l2 -> l1 = l2.
Proof.
  intros S1 S2. apply in_order_strongly in S1. apply in_order_strongly in S2.
  revert l2 S2; induction S1 as [|a l1 S1 IH Ha]; intros l2 S2 HP.
  - now apply Permutation_nil in HP.
  - destruct l2 as [|b l2];
      [apply Permutation_sym, Permutation_nil in HP; discriminate|].
    inversion S2 as [|? ? S2' Hb]; subst.
    assert (Hab : a = b).
    { assert (Hin : In a (b :: l2))
        by (apply (Permutation_in _ HP); now left).
      assert (Hin' : In b (a :: l1))
        by (apply (Permutation_in _ (Permutation_sym HP)); now left).
      destruct Hin as [E|Hin]; [now symmetry|].
      destruct Hin' as [E|Hin']; [exact E|].
      apply text_leb_antisym.
      - exact (proj1 (Forall_forall _ _) Ha b Hin').
      - exact (proj1 (Forall_forall _ _) Hb a Hin). }
    subst b. f_equal. apply IH; [exact S2'|].
    exact (Permutation_cons_inv HP).
Qed.

Lemma sorted_of_perm (l1 l2 : list str) :
  Permutation l1 l2 -> Text.sorted l1 = Text.sorted l2.
Proof.
  intros HP. apply sorted_perm_unique; try apply sorted_is_sorted.
  rewrite (sorted_perm l1), HP. symmetry. apply sorted_perm.
Qed.

Lemma is_empty_perm {A} (l1 l2 : list A) :
  Permutation l1 l2 -> is_empty l1 = is_empty l2.
Proof.
  intros HP. destruct l1, l2; try reflexivity.
  - apply Permutation_nil in HP. discriminate.
  - apply Permutation_sym, Permutation_nil in HP. discriminate.
Qed.

Lemma as_strs_perm (l1 l2 : list json) :
  Permutation l1 l2 ->
  match as_strs l1, as_strs l2 with
  | Some a, Some b => Permutation a b
  | None, None => True
  | _, _ => False
  end.
Proof.
  induction 1 as [|x l1 l2 HP IH|x y l|l1 l2 l3 HP1 IH1 HP2 IH2]; simpl.
  - constructor.
  - destruct x; try exact I.
    destruct (as_strs l1), (as_strs l2); try exact IH. now constructor.
  - destruct x, y; try exact I; destruct (as_strs l); try exact I.
    apply perm_swap.
  - destruct (as_strs l1) as [a|], (as_strs l2) as [b|], (as_strs l3) as [c|];
      try exact I; try contradiction.
    exact (Permutation_trans IH1 IH2).
Qed.

(** X17. The table and the summary do not depend on the order in which the
    findings are listed: with either list permuted, [render_table] prints the
    same table and [write_summary] appends the same text. *)
Theorem X17_report_ignores_list_order :
  forall (missing missing' unused unused' : list json) (mode : str),
    Permutation missing missing' ->
    Permutation unused unused' ->
    render_table missing unused = render_table missing' unused'
    /\ write_summary missing unused mode = write_summary missing' unused' mode.
Proof using getenv.
  intros missing missing' unused unused' mode Hm Hu.
  rewrite !render_table_eq, !write_summary_eq.
  pose proof (as_strs_perm Hm) as Pm. pose proof (as_strs_perm Hu) as Pu.
  destruct (as_strs missing) as [ms|], (as_strs missing') as [ms'|];
    try contradiction;
    destruct (as_strs unused) as [us|], (as_strs unused') as [us'|];
    try contradiction;
    try (split; [reflexivity|
                 destruct (getenv (py "GITHUB_STEP_SUMMARY")) as [[|c p]|];
                 reflexivity]).
  unfold table_rows, summary_text.
  rewrite (sorted_of_perm Pm), (sorted_of_perm Pu),
    (is_empty_perm Pm), (is_empty_perm Pu).
  split; reflexivity.
Qed.

(** ** Text that the console renders *)

Lemma tags_from_no_bracket (s : str) :
  forallb (fun c => negb (N.eqb c 91)) s = true ->
  forall skip escapes, Markup.tags_from skip escapes s = [].
Proof.
  induction s as [|c s IH]; intros H skip escapes; [reflexivity|].
  cbn [forallb] in H. apply andb_true_iff in H as [Hc H].
  apply negb_true_iff in Hc. cbn [Markup.tags_from].
  destruct skip as [|n]; [|now apply IH].
  destruct (N.eqb c 92); [now apply IH|]. rewrite Hc. now apply IH.
Qed.

Lemma plain_text_no_bracket (s : str) :
  plain_text s = true -> forallb (fun c => negb (N.eqb c 91)) s = true.
Proof.
  unfold plain_text. rewrite !forallb_forall. intros H c Hc.
  specialize (H c Hc). unfold plain_char in H.
  now apply andb_true_iff in H as [H _].
Qed.

Lemma markup_error_plain (s : str) : plain_text s = true -> markup_error s = false.
Proof.
  intros H. unfold markup_error, Markup.raises, Markup.tags.
  now rewrite (tags_from_no_bracket s (plain_text_no_bracket s H)).
Qed.

Lemma has_surrogate_false (s : str) :
  forallb (fun c => negb (Markup.is_surrogate c)) s = true ->
  Markup.has_surrogate s = false.
Proof.
  unfold Markup.has_surrogate. induction s as [|c s IH]; [reflexivity|].
  cbn [forallb existsb]. intros H. apply andb_true_iff in H as [Hc H].
  apply negb_true_iff in Hc. now rewrite Hc, IH.
Qed.

Lemma plain_text_no_surrogate (s : str) :
  plain_text s = true -> forallb (fun c => negb (Markup.is_surrogate c)) s = true.
Proof.
  unfold plain_text. rewrite !forallb_forall. intros H c Hc.
  specialize (H c Hc). unfold plain_char in H.
  now apply andb_true_iff in H as [_ H].
Qed.

Lemma existsb_none {A} (good bad : A -> bool) (l : list A) :
  (forall x, good x = true -> bad x = false) ->
  forallb good l = true -> existsb bad l = false.
Proof.
  intros Hx. induction l as [|x l IH]; [reflexivity|].
  cbn [forallb existsb]. intros H. apply andb_true_iff in H as [Hg H].
  now rewrite (Hx x Hg), IH.
Qed.

(** A renderable whose texts are plain is printed. *)
Lemma console_error_plain (r : renderable) :
  forallb plain_text (texts r) = true -> console_error r = None.
Proof.
  intros H. unfold console_error.
  rewrite (existsb_none plain_text markup_error (texts r) markup_error_plain H).
  rewrite (existsb_none plain_text Markup.has_surrogate (texts r)
             (fun t Ht => has_surrogate_false t (plain_text_no_surrogate t Ht)) H).
  reflexivity.
Qed.

Lemma forallb_join (P : char -> bool) (sep : str) (parts : list str) :
  forallb P sep = true ->
  forallb (forallb P) parts = true ->
  forallb P (Text.join sep parts) = true.
Proof.
  intros Hsep. induction parts as [|p parts IH]; intros H; [reflexivity|].
  cbn [forallb] in H. apply andb_true_iff in H as [Hp H].
  destruct parts as [|q parts]; [exact Hp|].
  change (Text.join sep (p :: q :: parts))
    with (p ++ sep ++ Text.join sep (q :: parts)).
  rewrite !forallb_app, Hp, Hsep. now rewrite (IH H).
Qed.

Lemma forallb_sorted (P : str -> bool) (l : list str) :
  forallb P l = true -> forallb P (Text.sorted l) = true.
Proof.
  rewrite !forallb_forall. intros H x Hx. apply H.
  exact (Permutation_in _ (sorted_perm l) Hx).
Qed.

Lemma valid_names_have (P : char -> bool) (names : list str) :
  forallb P allowed_chars = true ->
  forallb valid_name names = true ->
  forallb (forallb P) names = true.
Proof.
  intros HP. rewrite !forallb_forall. intros H x Hx. specialize (H x Hx).
  unfold valid_name in H. apply andb_true_iff in H as [_ H].
  exact (valid_token_has P x HP H).
Qed.

(** The names of the line-oriented parser, sorted and joined, hold characters
    of the allowed set, a comma and a space only. *)
Lemma joined_names_have (P : char -> bool) (names : list str) :
  forallb P allowed_chars = true ->
  forallb P (py ", ") = true ->
  forallb valid_name names = true ->
  forallb P (Text.join (py ", ") (Text.sorted names)) = true.
Proof.
  intros HP Hsep H. apply forallb_join; [exact Hsep|].
  apply forallb_sorted. now apply valid_names_have.
Qed.

Lemma table_is_plain (ms us : list str) :
  forallb valid_name ms = true ->
  forallb valid_name us = true ->
  forallb plain_text (texts (TableOf TABLE_title (table_rows ms us))) = true.
Proof.
  intros Hm Hu.
  assert (Jm : plain_text (Text.join (py ", ") (Text.sorted ms)) = true)
    by exact (joined_names_have plain_char ms eq_refl eq_refl Hm).
  assert (Ju : plain_text (Text.join (py ", ") (Text.sorted us)) = true)
    by exact (joined_names_have plain_char us eq_refl eq_refl Hu).
  unfold table_rows, texts.
  destruct (is_empty ms), (is_empty us); cbn [andb app flat_map fst snd forallb];
    rewrite ?Jm, ?Ju; reflexivity.
Qed.

Lemma summary_has_no_surrogate (ms us : list str) (mode : str) :
  forallb valid_name ms = true ->
  forallb valid_name us = true ->
  Markup.has_surrogate mode = false ->
  Markup.has_surrogate (summary_text ms us mode) = false.
Proof.
  intros Hm Hu Hmode.
  set (P := fun c => negb (Markup.is_surrogate c)).
  pose proof (joined_names_have P ms eq_refl eq_refl Hm) as Jm.
  pose proof (joined_names_have P us eq_refl eq_refl Hu) as Ju.
  assert (Pmode : forallb P mode = true).
  { unfold Markup.has_surrogate in Hmode. apply forallb_forall. intros c Hc.
    unfold P. apply negb_true_iff.
    destruct (Markup.is_surrogate c) eqn:E; [|reflexivity].
    rewrite <- Hmode. symmetry. apply existsb_exists. now exists c. }
  apply has_surrogate_false. fold P. unfold summary_text.
  rewrite forallb_app. apply andb_true_iff. split; [|reflexivity].
  apply forallb_join; [reflexivity|].
  destruct (is_empty ms), (is_empty us);
    cbn [andb app forallb]; rewrite ?forallb_app, ?Pmode, ?Jm, ?Ju; reflexivity.
Qed.

Lemma render_table_valid_names (ms us : list str) :
  forallb valid_name ms = true ->
  forallb valid_name us = true ->
  render_table (map JStr ms) (map JStr us)
  = ([Printed (TableOf TABLE_title (table_rows ms us))], Done tt).
Proof.
  intros Hm Hu. rewrite render_table_eq, !as_strs_names.
  apply console_print_ok, console_error_plain. now apply table_is_plain.
Qed.

Lemma write_summary_valid_names (ms us : list str) (mode : str) :
  forallb valid_name ms = true ->
  forallb valid_name us = true ->
  Markup.has_surrogate mode = false ->
  write_summary (map JStr ms) (map JStr us) mode
  = match getenv (py "GITHUB_STEP_SUMMARY") with
    | Some (c :: p) => ([Appended (c :: p) (summary_text ms us mode)], Done tt)
    | _ => ([], Done tt)
    end.
Proof.
  intros Hm Hu Hmode. rewrite write_summary_eq, !as_strs_names.
  now rewrite (summary_has_no_surrogate ms us mode Hm Hu Hmode).
Qed.

(** X15. [render_table] on names of the line-oriented parser (not empty, made
    of ASCII letters, digits, hyphen, underscore and dot) always prints its
    table and returns: such names hold no markup and no surrogate.  The table
    has a row for each list that is not empty, with the names sorted and
    joined by a comma and a space, or the single all-good row when both are
    empty, so it has one or two rows. *)
Theorem X15_render_table :
  forall ms us : list str,
    forallb valid_name ms = true ->
    forallb valid_name us = true ->
    render_table (map JStr ms) (map JStr us)
    = ([Printed (TableOf TABLE_title (table_rows ms us))], Done tt)
    /\ (1 <= List.length (table_rows ms us) <= 2)%nat
    /\ (List.length (table_rows ms us) = 2%nat <-> ms <> [] /\ us <> []).
Proof.
  intros ms us Hm Hu. split; [now apply render_table_valid_names|].
  unfold table_rows.
  destruct ms, us; simpl; repeat split; try lia; try discriminate;
    intros [H1 H2]; congruence.
Qed.

(** X16. [write_summary] does nothing when [GITHUB_STEP_SUMMARY] is unset or
    empty.  Otherwise, on names of the line-oriented parser and a mode without
    a lone surrogate, it appends one text to the file of that name and
    returns: a heading naming the mode, an empty line, and one bullet for each
    list that is not empty or the single all-good bullet, each line ended by a
    line feed.  The text can always be encoded. *)
Theorem X16_write_summary :
  forall (ms us : list str) (mode : str),
    forallb valid_name ms = true ->
    forallb valid_name us = true ->
    Markup.has_surrogate mode = false ->
    write_summary (map JStr ms) (map JStr us) mode
    = match getenv (py "GITHUB_STEP_SUMMARY") with
      | Some (c :: p) => ([Appended (c :: p) (summary_text ms us mode)], Done tt)
      | _ => ([], Done tt)
      end.
Proof. exact write_summary_valid_names. Qed.

(** ** A run in the requirements-file mode *)

Lemma parsed_names_valid (stdout : str) :
  forallb valid_name
    (Text.sorted_set (flat_map line_tokens (Text.splitlines stdout))) = true.
Proof.
  apply forallb_forall. intros x Hx.
  apply (proj1 (sorted_set_In _ _)) in Hx.
  apply (proj1 (in_flat_map _ _ _)) in Hx as (line & _ & Hx).
  exact (proj1 (line_tokens_valid line x Hx)).
Qed.

Lemma is_empty_map {A B} (f : A -> B) (l : list A) :
  is_empty (map f l) = is_empty l.
Proof. now destruct l. Qed.

(** X18. In the requirements-file mode, with a usable path and both checkers
    ending with 0 or 1, the names reported are those of the line-oriented
    parser, which the table and the summary always take.  So when the console
    renders what comes from outside (the opening line, the panels with the
    standard outputs and the panels with the standard errors), the run ends
    as the exit policy says on the two parsed lists: it exits with 1 when
    something is missing, or something is unused and the flag is set, and
    returns otherwise.  The standard errors are shown and decide nothing. *)
Theorem X18_requirements_mode_run :
  let raw_path := getenv_default (py "INPUT_PATH") (py ".") in
  let mode := lower (Text.strip (getenv_default (py "INPUT_MODE") (py "deptry"))) in
  let path := resolve raw_path in
  let diagnostics :=
    add_diagnostic (py "pip-extra-reqs") (stderr (extra_result path))
      (add_diagnostic (py "pip-missing-reqs") (stderr (missing_result path)) []) in
  mode = py "pip-check-reqs" ->
  path_exists path = true ->
  path_is_dir path = true ->
  not_in_0_1 (returncode (missing_result path)) = false ->
  not_in_0_1 (returncode (extra_result path)) = false ->
  console_error (MSG_checking raw_path mode fail_on_warn) = None ->
  console_error (PanelFit (Text.strip (stdout (missing_result path)))
                   (py "pip-missing-reqs") (py "cyan")) = None ->
  console_error (PanelFit (Text.strip (stdout (extra_result path)))
                   (py "pip-extra-reqs") (py "cyan")) = None ->
  snd (print_diagnostics (py "yellow") diagnostics) = Done tt ->
  exists missing unused,
    parse_pip_check_output (stdout (missing_result path)) = Done missing
    /\ parse_pip_check_output (stdout (extra_result path)) = Done unused
    /\ snd main
       = (if negb (is_empty missing) || (negb (is_empty unused) && fail_on_warn)
          then Exited 1 else Done tt).
Proof.
  intros raw_path mode path diagnostics Hmode He Hd Hm Hx Hc Pm Px Hp.
  rewrite !parse_pip_check_output_eq. eexists. eexists.
  split; [reflexivity|]. split; [reflexivity|].
  set (ms := Text.sorted_set
               (flat_map line_tokens (Text.splitlines (stdout (missing_result path))))).
  set (us := Text.sorted_set
               (flat_map line_tokens (Text.splitlines (stdout (extra_result path))))).
  assert (Vm : forallb valid_name ms = true) by apply parsed_names_valid.
  assert (Vu : forallb valid_name us = true) by apply parsed_names_valid.
  assert (Hg : not_in_0_1 (returncode (missing_result path))
               || not_in_0_1 (returncode (extra_result path)) = false)
    by now rewrite Hm, Hx.
  assert (Ha : analyse mode path
               = (fst (run_pip_check_reqs path),
                  Done (map JStr ms, map JStr us, diagnostics))).
  { unfold analyse. rewrite Hmode.
    change (Text.eqb (py "pip-check-reqs") (py "deptry")) with false.
    change (Text.eqb (py "pip-check-reqs") (py "pip-check-reqs")) with true.
    cbv iota. rewrite (run_pip_check_reqs_normal path Hg Pm Px).
    cbn [bind ret fst snd]. rewrite app_nil_r. reflexivity. }
  assert (Ht : snd (render_table (map JStr ms) (map JStr us)) = Done tt)
    by now rewrite (render_table_valid_names ms us Vm Vu).
  assert (Hs : snd (write_summary (map JStr ms) (map JStr us) mode) = Done tt).
  { rewrite (write_summary_valid_names ms us mode Vm Vu)
      by (rewrite Hmode; reflexivity).
    now destruct (getenv (py "GITHUB_STEP_SUMMARY")) as [[|c p]|]. }
  destruct (@main_ends_with_exit_policy _ (map JStr ms) (map JStr us) diagnostics
              Hc He Hd Ha Ht Hs Hp) as [Hend _].
  rewrite Hend, exit_policy_eq, !is_empty_map.
  destruct (negb (is_empty ms) || negb (is_empty us) && fail_on_warn);
    [reflexivity|].
  now destruct (negb (is_empty us)).
Qed.

End Program.

(** ** Concrete runs *)

(** The inputs below are ASCII, so the Unicode tables are never consulted;
    these stand for them. *)
Definition ascii_only_lower : str -> str := fun s => s.
Definition ascii_only_isdigit : char -> bool := fun _ => false.

(** A renderer of dict items for runs that may reach [str(item)]. *)
Definition elided_items : list (str * json) -> str := fun _ => py "...".

(** The styles the program names ([bold red], [yellow] and the like) are in
    normal form as they are written, and no text below has a handler tag. *)
Definition style_as_written : str -> str := fun s => s.
Definition no_handler : str -> bool := fun _ => false.

(** A standard output with the strict error handler: it refuses any lone
    surrogate. *)
Definition strict_stdout : renderable -> bool := fun _ => true.

Definition QUOTE : str := [34%N].

(** The report of the tests: one missing module, one unused module. *)
Definition example_report : json :=
  JObj [(py "missing", JArr [JObj [(py "module", JStr (py "requests"))]]);
        (py "unused", JArr [JObj [(py "module", JStr (py "boto3"))]])].

Definition example_report_text : str :=
  py "{" ++ QUOTE ++ py "missing" ++ QUOTE ++ py ": [{" ++ QUOTE ++ py "module"
  ++ QUOTE ++ py ": " ++ QUOTE ++ py "requests" ++ QUOTE ++ py "}], " ++ QUOTE
  ++ py "unused" ++ QUOTE ++ py ": [{" ++ QUOTE ++ py "module" ++ QUOTE ++ py ": "
  ++ QUOTE ++ py "boto3" ++ QUOTE ++ py "}]}".

(** A report with two entries for one module. *)
Definition duplicate_report : json :=
  JObj [(py "missing", JArr [JObj [(py "module", JStr (py "requests"))];
                             JObj [(py "module", JStr (py "requests"))]]);
        (py "unused", JArr [])].

Definition duplicate_report_text : str :=
  py "{" ++ QUOTE ++ py "missing" ++ QUOTE ++ py ": [{" ++ QUOTE ++ py "module"
  ++ QUOTE ++ py ": " ++ QUOTE ++ py "requests" ++ QUOTE ++ py "}, {" ++ QUOTE
  ++ py "module" ++ QUOTE ++ py ": " ++ QUOTE ++ py "requests" ++ QUOTE
  ++ py "}], " ++ QUOTE ++ py "unused" ++ QUOTE ++ py ": []}".

(** A report whose missing entry is the bare name. *)
Definition bare_name_report : json :=
  JObj [(py "missing", JArr [JStr (py "requests")])].

Definition bare_name_report_text : str :=
  py "{" ++ QUOTE ++ py "missing" ++ QUOTE ++ py ": [" ++ QUOTE ++ py "requests"
  ++ QUOTE ++ py "]}".

(** A decoder that knows the three reports above and rejects every other
    text. *)
Definition loads_example (s : str) : str + json :=
  if Text.eqb s example_report_text then inr example_report
  else if Text.eqb s duplicate_report_text then inr duplicate_report
  else if Text.eqb s bare_name_report_text then inr bare_name_report
  else inl (py "Expecting value: line 1 column 1 (char 0)").

(** An environment that sets the mode to [deptry] and nothing else, a project
    directory that exists, and an analyzer that found issues and wrote the
    report with the duplicate. *)
Definition deptry_env (name : str) : option str :=
  if Text.eqb name (py "INPUT_MODE") then Some (py "deptry") else None.
Definition project : Path := {| parts := [py "github"; py "workspace"] |}.
Definition deptry_found_duplicate (command : list str) (cwd : Path)
  : CompletedProcess :=
  {| returncode := 1; stdout := duplicate_report_text; stderr := [] |}.

(** An analyzer that wrote a message naming a log file instead of a report. *)
Definition log_message : str := py "error: see [/tmp/deptry.log]".
Definition deptry_wrote_message (command : list str) (cwd : Path)
  : CompletedProcess :=
  {| returncode := 1; stdout := log_message; stderr := [] |}.

(** An analyzer that wrote the report with the bare name. *)
Definition deptry_wrote_bare_name (command : list str) (cwd : Path)
  : CompletedProcess :=
  {| returncode := 1; stdout := bare_name_report_text; stderr := [] |}.

(** An environment that sets the mode to [pip-check-reqs] and nothing else, a
    missing check that found a module and an extra check that broke. *)
Definition pip_env (name : str) : option str :=
  if Text.eqb name (py "INPUT_MODE") then Some (py "pip-check-reqs") else None.
Definition missing_found_one : CompletedProcess :=
  {| returncode := 1;
     stdout := py "Missing requirements:" ++ [Text.LF] ++ py "- requests";
     stderr := [] |}.
Definition extra_broke : CompletedProcess :=
  {| returncode := 3; stdout := []; stderr := py "usage: pip-extra-reqs" |}.

(** A missing check that found nothing and an extra check that found one
    requirement. *)
Definition nothing_missing : CompletedProcess :=
  {| returncode := 0; stdout := []; stderr := [] |}.
Definition extra_found_one : CompletedProcess :=
  {| returncode := 1;
     stdout := py "Unused requirements:" ++ [Text.LF] ++ py "- boto3";
     stderr := [] |}.

(** Two tools whose results are fixed: the missing check gives [m], any other
    command gives [e]. *)
Definition two_tools (m e : CompletedProcess) (command : list str) (cwd : Path)
  : CompletedProcess :=
  match command with
  | tool :: _ => if Text.eqb tool (py "pip-missing-reqs") then m else e
  | [] => e
  end.

(** An entry with a [module], one with an empty [module] and a [name], and one
    with neither. *)
Definition three_entries : list (list (str * json)) :=
  [[(py "module", JStr (py "requests"))];
   [(py "module", JStr []); (py "name", JStr (py "boto3"))];
   [(py "error", JInt 2)]].
Definition three_entries_report : json :=
  JObj [(py "missing", JArr (map JObj three_entries))].

Example test_parse_deptry_report_handles_missing_and_unused :
  parse_deptry_report loads_example elided_items style_as_written no_handler
    strict_stdout example_report_text
  = ([], Done ([JStr (py "requests")], [JStr (py "boto3")])).
Proof. reflexivity. Qed.

Example three_entries_names :
  deptry_findings elided_items three_entries_report
  = ([], Done ([JStr (py "requests"); JStr (py "boto3"); JStr (py "{...}")], [])).
Proof. reflexivity. Qed.

Example test_parse_pip_check_output_bullets :
  parse_pip_check_output ascii_only_lower ascii_only_isdigit
    (py "Missing requirements:" ++ [Text.LF] ++ py "- requests")
  = Done [py "requests"].
Proof. reflexivity. Qed.

Example test_run_pip_check_reqs_collects_missing_and_unused :
  let project := {| parts := [py "tmp"; py "project"] |} in
  let found (p : Path) :=
    Text.eqb (path_str p) (py "/tmp/project/requirements.txt") in
  let m := {| returncode := 1;
              stdout := py "Missing requirements:" ++ [Text.LF] ++ py "- requests";
              stderr := [] |} in
  let e := {| returncode := 1;
              stdout := py "Unused requirements:" ++ [Text.LF] ++ py "- boto3";
              stderr := [] |} in
  snd (run_pip_check_reqs ascii_only_lower ascii_only_isdigit found
         (two_tools m e) style_as_written no_handler strict_stdout project)
  = Done ([py "requests"], [py "boto3"], []).
Proof. vm_compute. reflexivity. Qed.

(** What the console does with the message naming a log file: the name in
    brackets reads as a closing tag, and no tag is open. *)
Example log_message_is_not_rendered :
  forall normalize handler rejects,
    console_error normalize handler rejects (Markup log_message) = Some MarkupError.
Proof. reflexivity. Qed.

(** The program's own opening line is rendered. *)
Example opening_line_is_rendered :
  console_error style_as_written no_handler strict_stdout
    (MSG_checking (py ".") (py "deptry") false) = None.
Proof. reflexivity. Qed.

(** A run in the requirements-file mode that finds one unused requirement
    and nothing missing, with the flag unset: it ends with the warning and the
    success line, for C1. *)
Lemma C1_exit_policy_witness :
  snd (main ascii_only_lower ascii_only_isdigit loads_example elided_items
         pip_env (fun _ => project) (fun _ => true) (fun _ => true)
         (two_tools nothing_missing extra_found_one)
         style_as_written no_handler strict_stdout)
  = snd (exit_policy style_as_written no_handler strict_stdout
           (@nil json) [JStr (py "boto3")] false).
Proof.
  refine (proj1 (proj2 (C1_exit_policy ascii_only_lower ascii_only_isdigit
                          loads_example elided_items pip_env (fun _ => project)
                          (fun _ => true) (fun _ => true)
                          (two_tools nothing_missing extra_found_one)
                          style_as_written no_handler strict_stdout)
                   [Printed MSG_pip_banner;
                    Ran [py "pip-missing-reqs"; py "/github/workspace";
                         py "--requirements-file";
                         py "/github/workspace/requirements.txt"] project;
                    Ran [py "pip-extra-reqs"; py "/github/workspace";
                         py "--requirements-file";
                         py "/github/workspace/requirements.txt"] project;
                    Printed (PanelFit (py "Unused requirements:" ++ [Text.LF]
                                       ++ py "- boto3")
                               (py "pip-extra-reqs") (py "cyan"))]
                   [] [JStr (py "boto3")] [] _ _ _ _ _ _ _));
    reflexivity.
Defined.

(** A blank output, for C7. *)
Lemma C7_blank_stdout_witness :
  forallb Text.is_space (py "  " ++ [Text.LF]) = true
  /\ parse_deptry_report loads_example elided_items style_as_written no_handler
       strict_stdout (py "  " ++ [Text.LF])
     = ([], Done ([], [])).
Proof.
  split; [reflexivity|].
  apply (@C7_blank_stdout loads_example elided_items style_as_written no_handler
           strict_stdout (py "  " ++ [Text.LF])).
  reflexivity.
Defined.

(** The lines of the test output, for C4. *)
Lemma C4_line_tokens_witness :
  parse_pip_check_output ascii_only_lower ascii_only_isdigit (py "requests")
  = Done [py "requests"]
  /\ scan_line ascii_only_lower ascii_only_isdigit [py "requests"]
       (py "Missing requirements:")
     = Done [py "requests"].
Proof.
  split.
  - apply (proj1 (C4_line_tokens ascii_only_lower ascii_only_isdigit)
             [] (py "requests")).
    + discriminate.
    + reflexivity.
    + reflexivity.
    + reflexivity.
  - apply (proj2 (C4_line_tokens ascii_only_lower ascii_only_isdigit)
             [py "requests"] (py "Missing requirements:")).
    reflexivity.
Defined.

(** C4 as stated fails: [results] is a token of allowed characters, and the
    line is dropped because it begins with a noise prefix.  The prefixes are
    looked for after stripping: the line [examining] followed by a space
    begins with a header prefix as it stands, and it yields a token. *)
Lemma C4_counterexample :
  forallb (fun c => Text.mem c allowed_chars) (py "results") = true
  /\ (forall ul ud, scan_line ul ud [] (py "results") = Done [])
  /\ (forall ul ud, parse_pip_check_output ul ud (py "results") = Done [])
  /\ (forall ul, Text.startswith_any (Text.lower ul (py "examining "))
                   header_prefixes = true)
  /\ (forall ul ud, parse_pip_check_output ul ud (py "examining ")
                    = Done [py "examining"]).
Proof.
  split; [reflexivity|]. split; [intros ul ud; reflexivity|].
  split; [intros ul ud; reflexivity|].
  split; [intros ul; reflexivity|]. intros ul ud; reflexivity.
Qed.

(** C3, where the code departs from it: the parser reads the example report,
    and the two lists it returns, written back as a document under the
    [missing] and [unused] keys, are a document it cannot read.  A name is a
    [str]; the parser calls [get] on every entry, and the call raises
    [AttributeError] before the alternative [str(item)], written for entries
    without the two fields, is reached.  So it is for any two lists the parser
    returns in which some name is not an object. *)
Theorem C3_reparse_raises :
  (forall repr, deptry_findings repr example_report
                = ([], Done ([JStr (py "requests")], [JStr (py "boto3")])))
  /\ (forall repr,
         deptry_findings repr
           (reserialize_plain [JStr (py "requests")] [JStr (py "boto3")])
         = ([], Raised AttributeError))
  /\ (forall repr data missing unused,
         snd (deptry_findings repr data) = Done (missing, unused) ->
         forallb is_object (missing ++ unused) = false ->
         deptry_findings repr (reserialize_plain missing unused)
         = ([], Raised AttributeError)).
Proof.
  split; [intros repr; reflexivity|]. split; [intros repr; reflexivity|].
  intros repr data missing unused _ H. now apply reparse_plain_raises.
Qed.

(** C5, where the code departs from it: a document that [json.loads] reads,
    with an entry that is the bare name, yields no name.  The entry is a
    [str]; [item.get] raises [AttributeError] before the alternative
    [str(item)] is reached, nothing catches it, and the run ends with the
    traceback and status 1 after the banner. *)
Theorem C5_string_entry_raises :
  (forall repr, deptry_findings repr bare_name_report = ([], Raised AttributeError))
  /\ (forall loads repr normalize handler rejects stdout,
         Text.strip stdout <> [] ->
         loads stdout = inr bare_name_report ->
         parse_deptry_report loads repr normalize handler rejects stdout
         = ([], Raised AttributeError))
  /\ main ascii_only_lower ascii_only_isdigit loads_example elided_items
       deptry_env (fun _ => project) (fun _ => true) (fun _ => true)
       deptry_wrote_bare_name style_as_written no_handler strict_stdout
     = ([Printed MSG_started;
         Printed (MSG_checking (py ".") (py "deptry") false);
         Printed MSG_deptry_banner;
         Ran [py "deptry"; py "/github/workspace"; py "--json"] project],
        Raised AttributeError).
Proof.
  split; [intros repr; reflexivity|]. split.
  - intros loads repr normalize handler rejects stdout Hblank Hloads.
    unfold parse_deptry_report.
    apply is_empty_false_iff in Hblank. now rewrite Hblank, Hloads.
  - vm_compute. reflexivity.
Qed.

(** C8, where the code departs from it.  When the console renders the two
    lines, the parser prints the decoder's message and the raw text and exits
    with status 2, and what was to follow is not run.  But the raw text is
    printed as markup: for the output [error: see [/tmp/deptry.log]] the
    second print raises [MarkupError], [sys.exit(2)] is not reached, and the
    run ends with status 1. *)
Theorem C8_markup_in_stdout_raises :
  (forall loads repr normalize handler rejects (stdout detail : str),
      Text.strip stdout <> [] ->
      loads stdout = inl detail ->
      console_error normalize handler rejects (MSG_unparsable detail) = None ->
      console_error normalize handler rejects (Markup stdout) = None ->
      parse_deptry_report loads repr normalize handler rejects stdout
      = ([Printed (MSG_unparsable detail); Printed (Markup stdout)], Exited 2)
      /\ forall (B : Type) (rest : list json * list json -> M B),
           bind (parse_deptry_report loads repr normalize handler rejects stdout)
             rest
           = ([Printed (MSG_unparsable detail); Printed (Markup stdout)],
              Exited 2))
  /\ (forall loads repr normalize handler rejects (detail : str),
         loads log_message = inl detail ->
         console_error normalize handler rejects (MSG_unparsable detail) = None ->
         parse_deptry_report loads repr normalize handler rejects log_message
         = ([Printed (MSG_unparsable detail)], Raised MarkupError))
  /\ main ascii_only_lower ascii_only_isdigit loads_example elided_items
       deptry_env (fun _ => project) (fun _ => true) (fun _ => true)
       deptry_wrote_message style_as_written no_handler strict_stdout
     = ([Printed MSG_started;
         Printed (MSG_checking (py ".") (py "deptry") false);
         Printed MSG_deptry_banner;
         Ran [py "deptry"; py "/github/workspace"; py "--json"] project;
         Printed (MSG_unparsable (py "Expecting value: line 1 column 1 (char 0)"))],
        Raised MarkupError)
  /\ exit_status
       (snd (main ascii_only_lower ascii_only_isdigit loads_example elided_items
               deptry_env (fun _ => project) (fun _ => true) (fun _ => true)
               deptry_wrote_message style_as_written no_handler strict_stdout))
     = 1%Z.
Proof.
  split; [|split; [|split]].
  - intros loads repr normalize handler rejects stdout detail Hblank Hloads H1 H2.
    pose proof (@parse_deptry_report_malformed loads repr normalize handler
                  rejects stdout detail Hblank Hloads H1 H2) as H.
    split; [exact H|]. intros B rest. now apply bind_exited.
  - intros loads repr normalize handler rejects detail Hloads H1.
    rewrite (@parse_deptry_report_not_json loads repr normalize handler rejects
               log_message detail ltac:(discriminate) Hloads), H1.
    reflexivity.
  - vm_compute. reflexivity.
  - vm_compute. reflexivity.
Qed.

(** C6, where the code departs from it: in the structured mode two entries
    for one module give the name twice; the table shows it twice and the exit
    policy is run on the list with the duplicate. *)
Theorem C6_deptry_keeps_duplicates :
  (forall repr, deptry_findings repr duplicate_report
                = ([], Done ([JStr (py "requests"); JStr (py "requests")], [])))
  /\ ~ NoDup [JStr (py "requests"); JStr (py "requests")]
  /\ main ascii_only_lower ascii_only_isdigit loads_example elided_items
       deptry_env (fun _ => project) (fun _ => true) (fun _ => true)
       deptry_found_duplicate style_as_written no_handler strict_stdout
     = ([Printed MSG_started;
         Printed (MSG_checking (py ".") (py "deptry") false);
         Printed MSG_deptry_banner;
         Ran [py "deptry"; py "/github/workspace"; py "--json"] project;
         Printed (TableOf (EMOJI_info ++ py " Dependency Report")
                    [(EMOJI_missing ++ py " Missing", py "requests, requests",
                      py "bold red")]);
         Printed MSG_issues],
        Exited 1).
Proof.
  split; [intros repr; reflexivity|]. split.
  - intros H. inversion H as [|x l Hin _]. apply Hin. now left.
  - vm_compute. reflexivity.
Qed.

(** C2, where the code departs from it: the missing check ended with 1 and
    the extra check with 3; the runner prints the failure line and the
    standard error it captured, and exits with 1, not with 3.  Whatever the
    two tools wrote, the runner never exits with 3, and it exits with 1
    whenever the panels with the standard errors are printed.  The whole run
    then ends with the status that stands for dependency issues. *)
Theorem C2_status_1_hides_failure :
  (forall (ul : str -> str) (ud : char -> bool) (found : Path -> bool)
          (normalize : str -> str) (handler : str -> bool)
          (rejects : renderable -> bool)
          (path : Path) (m_out m_err e_out e_err : str),
      let m := {| returncode := 1; stdout := m_out; stderr := m_err |} in
      let e := {| returncode := 3; stdout := e_out; stderr := e_err |} in
      snd (run_pip_check_reqs ul ud found (two_tools m e) normalize handler
             rejects path) <> Exited 3
      /\ (snd (print_diagnostics normalize handler rejects (py "red")
                (add_diagnostic (py "pip-extra-reqs") e_err
                   (add_diagnostic (py "pip-missing-reqs") m_err []))) = Done tt ->
          snd (run_pip_check_reqs ul ud found (two_tools m e) normalize handler
                 rejects path) = Exited 1))
  /\ main ascii_only_lower ascii_only_isdigit loads_example elided_items
       pip_env (fun _ => project) (fun _ => true) (fun _ => true)
       (two_tools missing_found_one extra_broke)
       style_as_written no_handler strict_stdout
     = ([Printed MSG_started;
         Printed (MSG_checking (py ".") (py "pip-check-reqs") false);
         Printed MSG_pip_banner;
         Ran [py "pip-missing-reqs"; py "/github/workspace";
              py "--requirements-file"; py "/github/workspace/requirements.txt"]
           project;
         Ran [py "pip-extra-reqs"; py "/github/workspace";
              py "--requirements-file"; py "/github/workspace/requirements.txt"]
           project;
         Printed MSG_unexpected_status;
         Printed (PanelFit (py "usage: pip-extra-reqs")
                    (py "pip-extra-reqs stderr") (py "red"))],
        Exited 1).
Proof.
  split.
  - intros ul ud found normalize handler rejects path m_out m_err e_out e_err
      m e.
    rewrite run_pip_check_reqs_unexpected_status by reflexivity.
    cbn [snd].
    change (stderr (extra_result found (two_tools m e) path)) with e_err.
    change (stderr (missing_result found (two_tools m e) path)) with m_err.
    destruct (print_diagnostics_cases normalize handler rejects (py "red")
                (add_diagnostic (py "pip-extra-reqs") e_err
                   (add_diagnostic (py "pip-missing-reqs") m_err [])))
      as [E|[x E]]; rewrite E; split; try discriminate; reflexivity.
  - vm_compute. reflexivity.
Qed.

(** ** More concrete runs *)

(** A missing check that found nothing and complained on standard error. *)
Definition nothing_missing_noisy : CompletedProcess :=
  {| returncode := 0; stdout := []; stderr := py "WARNING: no files" |}.

(** The same, with a complaint that names a log file. *)
Definition nothing_missing_logged : CompletedProcess :=
  {| returncode := 0; stdout := []; stderr := py "see [/tmp/pip.log]" |}.

(** An extra check that found nothing. *)
Definition nothing_extra : CompletedProcess :=
  {| returncode := 0; stdout := []; stderr := [] |}.

(** An environment with a mode that is not supported. *)
Definition poetry_env (name : str) : option str :=
  if Text.eqb name (py "INPUT_MODE") then Some (py " Poetry ") else None.

(** An environment that names a path with brackets in it, and that path
    resolved. *)
Definition old_data_env (name : str) : option str :=
  if Text.eqb name (py "INPUT_PATH") then Some (py "/data/[/old]") else None.
Definition old_data : Path := {| parts := [py "data"; py "[/old]"] |}.

(** An environment that sets the summary file and nothing else. *)
Definition summary_env (name : str) : option str :=
  if Text.eqb name (py "GITHUB_STEP_SUMMARY") then Some (py "/tmp/summary.md")
  else None.

(** A structured analyzer that found nothing and wrote nothing. *)
Definition deptry_found_nothing (command : list str) (cwd : Path)
  : CompletedProcess :=
  {| returncode := 0; stdout := []; stderr := [] |}.

(** A path that does not exist and holds what reads as a closing tag: the
    second opening line cannot be printed, and the run ends with the
    exception instead of status 2. *)
Example bad_path_with_brackets :
  main ascii_only_lower ascii_only_isdigit loads_example elided_items
    old_data_env (fun _ => old_data) (fun _ => false) (fun _ => false)
    deptry_found_nothing style_as_written no_handler strict_stdout
  = ([Printed MSG_started], Raised MarkupError).
Proof. vm_compute. reflexivity. Qed.

(** Two runs in the requirements-file mode that differ in the standard error
    of the missing check only: with none the run returns; with one that names
    a log file in brackets the panel showing it cannot be printed and the run
    ends with the exception, after the table. *)
Example stderr_can_end_the_run :
  snd (main ascii_only_lower ascii_only_isdigit loads_example elided_items
         pip_env (fun _ => project) (fun _ => true) (fun _ => true)
         (two_tools nothing_missing nothing_extra)
         style_as_written no_handler strict_stdout)
  = Done tt
  /\ snd (main ascii_only_lower ascii_only_isdigit loads_example elided_items
            pip_env (fun _ => project) (fun _ => true) (fun _ => true)
            (two_tools nothing_missing_logged nothing_extra)
            style_as_written no_handler strict_stdout)
     = Raised MarkupError.
Proof. split; vm_compute; reflexivity. Qed.

Lemma X3_result_by_lines_witness :
  parse_pip_check_output ascii_only_lower ascii_only_isdigit
    (py "boto3" ++ [Text.LF] ++ py "requests")
  = parse_pip_check_output ascii_only_lower ascii_only_isdigit
      (py "requests" ++ [Text.LF] ++ py "boto3" ++ [Text.LF] ++ py "requests").
Proof.
  apply (proj2 (X3_pip_parser_result_by_lines ascii_only_lower ascii_only_isdigit
                  (py "boto3" ++ [Text.LF] ++ py "requests"))).
  intros line. cbv. tauto.
Defined.

Lemma X4_bulleted_token_witness :
  scan_line ascii_only_lower ascii_only_isdigit [] (py "- " ++ py "results")
  = Done [py "results"].
Proof.
  apply (proj1 (@X4_bulleted_token_is_kept ascii_only_lower ascii_only_isdigit
                  (py "- ") (py "results") (or_introl eq_refl)
                  ltac:(discriminate) eq_refl) []).
Defined.

Lemma X5_skipped_lines_witness :
  scan_line ascii_only_lower ascii_only_isdigit [py "requests"]
    (py "12:30:01 requests checked")
  = Done [py "requests"].
Proof.
  apply X5_skipped_lines. right. split; reflexivity.
Defined.

Lemma X7_run_pip_check_reqs_witness :
  exists missing unused,
    snd (run_pip_check_reqs ascii_only_lower ascii_only_isdigit (fun _ => true)
           (two_tools nothing_missing_noisy extra_found_one)
           style_as_written no_handler strict_stdout project)
    = Done (missing, unused, [(py "pip-missing-reqs", py "WARNING: no files")]).
Proof.
  destruct (@X7_run_pip_check_reqs_returns ascii_only_lower ascii_only_isdigit
              (fun _ => true) (two_tools nothing_missing_noisy extra_found_one)
              style_as_written no_handler strict_stdout
              project eq_refl eq_refl eq_refl eq_refl)
    as (missing & unused & _ & _ & E).
  exists missing, unused. rewrite E. reflexivity.
Defined.

Lemma X8_run_pip_check_reqs_witness :
  exists code,
    snd (run_pip_check_reqs ascii_only_lower ascii_only_isdigit (fun _ => true)
           (two_tools missing_found_one extra_broke)
           style_as_written no_handler strict_stdout project)
    = Exited code
    /\ code <> 0%Z.
Proof.
  destruct (proj2 (@X8_run_pip_check_reqs_exit_status ascii_only_lower
                     ascii_only_isdigit (fun _ => true)
                     (two_tools missing_found_one extra_broke)
                     style_as_written no_handler strict_stdout project eq_refl)
              eq_refl)
    as (code & E & Hcode & _).
  exists code. split; [exact E|exact Hcode].
Defined.

Lemma X9_bad_path_witness :
  main ascii_only_lower ascii_only_isdigit loads_example elided_items
    deptry_env (fun _ => project) (fun _ => false) (fun _ => false)
    deptry_found_duplicate style_as_written no_handler strict_stdout
  = ([Printed MSG_started;
      Printed (MSG_checking (py ".") (py "deptry") false);
      Printed (MSG_bad_path (fun _ => false) project)],
     Exited 2).
Proof.
  exact (@X9_bad_path_stops_the_run ascii_only_lower ascii_only_isdigit
           loads_example elided_items deptry_env (fun _ => project)
           (fun _ => false) (fun _ => false) deptry_found_duplicate
           style_as_written no_handler strict_stdout eq_refl).
Defined.

Lemma X10_unsupported_mode_witness :
  main ascii_only_lower ascii_only_isdigit loads_example elided_items
    poetry_env (fun _ => project) (fun _ => true) (fun _ => true)
    deptry_found_duplicate style_as_written no_handler strict_stdout
  = ([Printed MSG_started;
      Printed (MSG_checking (py ".") (py "poetry") false);
      Printed (MSG_unsupported_mode (py "poetry"))],
     Exited 2).
Proof.
  exact (@X10_unsupported_mode_stops_the_run ascii_only_lower ascii_only_isdigit
           loads_example elided_items poetry_env (fun _ => project)
           (fun _ => true) (fun _ => true) deptry_found_duplicate
           style_as_written no_handler strict_stdout eq_refl eq_refl).
Defined.

Lemma X12_success_witness :
  exists t unused diagnostics,
    analyse ascii_only_lower ascii_only_isdigit loads_example elided_items
      (fun _ => true) deptry_found_nothing style_as_written no_handler
      strict_stdout (py "deptry") project
    = (t, Done ([], unused, diagnostics)).
Proof.
  destruct (@X12_success_means_nothing_missing ascii_only_lower
              ascii_only_isdigit loads_example elided_items deptry_env
              (fun _ => project) (fun _ => true) (fun _ => true)
              deptry_found_nothing style_as_written no_handler strict_stdout
              eq_refl)
    as (_ & _ & _ & t & unused & diagnostics & E & _).
  exists t, unused, diagnostics. exact E.
Defined.

Lemma X13_structured_parser_witness :
  deptry_findings elided_items (JArr [JObj [(py "module", JStr (py "requests"))]])
  = ([], Raised AttributeError).
Proof.
  apply (proj1 (X13_structured_parser_edges elided_items)). reflexivity.
Defined.

Lemma X14_structured_names_witness :
  forallb truthy [JStr (py "requests")] = true
  /\ forallb truthy [JStr (py "boto3")] = true.
Proof.
  apply (@X14_structured_names_are_truthy elided_items example_report).
  reflexivity.
Defined.

Lemma X15_render_table_witness :
  render_table style_as_written no_handler strict_stdout
    (map JStr [py "requests"; py "boto3"]) (map JStr [])
  = ([Printed (TableOf TABLE_title
                 [(EMOJI_missing ++ py " Missing", py "boto3, requests",
                   py "bold red")])],
     Done tt).
Proof.
  exact (proj1 (@X15_render_table style_as_written no_handler strict_stdout
                  [py "requests"; py "boto3"] [] eq_refl eq_refl)).
Defined.

Lemma X16_write_summary_witness :
  write_summary summary_env (map JStr []) (map JStr [py "boto3"])
    (py "pip-check-reqs")
  = ([Appended (py "/tmp/summary.md")
        (summary_text [] [py "boto3"] (py "pip-check-reqs"))],
     Done tt).
Proof.
  exact (@X16_write_summary summary_env [] [py "boto3"] (py "pip-check-reqs")
           eq_refl eq_refl eq_refl).
Defined.

Lemma X17_report_order_witness :
  render_table style_as_written no_handler strict_stdout
    [JStr (py "requests"); JStr (py "boto3")] []
  = render_table style_as_written no_handler strict_stdout
      [JStr (py "boto3"); JStr (py "requests")] [].
Proof.
  apply (proj1 (@X17_report_ignores_list_order deptry_env style_as_written
                  no_handler strict_stdout
                  [JStr (py "requests"); JStr (py "boto3")]
                  [JStr (py "boto3"); JStr (py "requests")] [] [] (py "deptry")
                  (perm_swap _ _ _) (perm_nil _))).
Defined.

Lemma X18_requirements_mode_witness :
  exists missing unused,
    parse_pip_check_output ascii_only_lower ascii_only_isdigit [] = Done missing
    /\ parse_pip_check_output ascii_only_lower ascii_only_isdigit
         (py "Unused requirements:" ++ [Text.LF] ++ py "- boto3")
       = Done unused
    /\ snd (main ascii_only_lower ascii_only_isdigit loads_example elided_items
              pip_env (fun _ => project) (fun _ => true) (fun _ => true)
              (two_tools nothing_missing_noisy extra_found_one)
              style_as_written no_handler strict_stdout)
       = (if negb (is_empty missing) || (negb (is_empty unused) && false)
          then Exited 1 else Done tt).
Proof.
  exact (@X18_requirements_mode_run ascii_only_lower ascii_only_isdigit
           loads_example elided_items pip_env (fun _ => project)
           (fun _ => true) (fun _ => true)
           (two_tools nothing_missing_noisy extra_found_one)
           style_as_written no_handler strict_stdout
           eq_refl eq_refl eq_refl eq_refl eq_refl eq_refl eq_refl eq_refl
           eq_refl).
Defined.

(** The report of the tests, for X19. *)
Lemma X19_object_entries_witness :
  parse_deptry_report loads_example elided_items style_as_written no_handler
    strict_stdout example_report_text
  = ([], Done ([JStr (py "requests")], [JStr (py "boto3")])).
Proof.
  refine (@X19_object_entries_are_named loads_example elided_items
            style_as_written no_handler strict_stdout example_report_text
            example_report
            [[(py "module", JStr (py "requests"))]]
            [[(py "module", JStr (py "boto3"))]] _ _ _ _);
    [discriminate|reflexivity|reflexivity|reflexivity].
Defined.
